(** * Translation Request Portal: intake, blueprint matcher and review stage

    A shallow embedding of the wizard implemented by
    [src/components/AnalysisPopup.tsx] (the [AnalysisPopup] component and the
    [TranslationPortal] page) and by the [CheckAndFinalizeForm] component.

    Conventions of the embedding:
    - a JavaScript string is a [string], the sequence of the bytes of its
      UTF-8 encoding, and [toLowerCase] is the case mapping of the ASCII
      letters, which decides the classification (the twelve keywords of
      [fileTypeMap] are ASCII) and is what the page model filters its rows
      with; [String.prototype.toLowerCase] itself is a built-in of the
      language, and what is proved of the two search boxes is proved for
      every case map that has its properties ([JsCaseMap]);
    - a React state cell is a record field, a state updater [prev => ...] is
      a function on the previous value, an event handler is a function on the
      component state;
    - the one timer of the program counts milliseconds in a [nat];
    - an optional callback prop is a value of [SaveProp]; a call that can
      throw returns a [Completion]. *)

From Stdlib Require Import ZArith Ascii.
From stdpp Require Import list strings.

(** ** Strings *)

(** [String.prototype.toLowerCase], on one ASCII character. *)
Definition toLowerAscii (c : ascii) : ascii :=
  let n := nat_of_ascii c in
  if (65 <=? n) && (n <=? 90) then ascii_of_nat (n + 32) else c.

Fixpoint toLowerCase (s : string) : string :=
  match s with
  | EmptyString => EmptyString
  | String c s' => String (toLowerAscii c) (toLowerCase s')
  end.

(** Does [t] occur in [s] at position 0? *)
Fixpoint startsWith (s t : string) {struct t} : bool :=
  match t, s with
  | EmptyString, _ => true
  | String _ _, EmptyString => false
  | String c t', String d s' => if Ascii.eqb c d then startsWith s' t' else false
  end.

(** [String.prototype.includes]: does [t] occur in [s] at some position? *)
Fixpoint includes (s t : string) : bool :=
  startsWith s t ||
  match s with
  | EmptyString => false
  | String _ s' => includes s' t
  end.

(** The truthiness of a string: only the empty string is falsy. *)
Definition truthy (s : string) : bool :=
  match s with EmptyString => false | String _ _ => true end.

(** [a || b] where [a] is an optional string property. *)
Definition orElse (a : option string) (b : string) : string :=
  match a with
  | Some s => if truthy s then s else b
  | None => b
  end.

(** [Array.prototype.join]. *)
Fixpoint join (sep : string) (l : list string) : string :=
  match l with
  | [] => ""
  | [x] => x
  | x :: rest => x +:+ sep +:+ join sep rest
  end.

(** A substring occurrence, up to the case of ASCII letters. *)
Definition containsIgnoreCase (s k : string) : Prop :=
  ∃ pre u post, s = pre +:+ u +:+ post ∧ toLowerCase u = toLowerCase k.

(** ** Data model *)

(** The browser's [File] handle, with the properties of [FileWithPath]. *)
Module File.
Record t := mk {
  name : string;
  size : nat;
  path : option string;
  webkitRelativePath : string
}.
End File.

Inductive FileType := work | reference | glossary | instructions.

#[global] Instance FileType_eq_dec : EqDecision FileType.
Proof. solve_decision. Defined.

Record FileData := mkFileData {
  file : File.t;
  path : string;
  type : FileType;
  selected : bool
}.

(** [{ ...file, type: newType }] and [{ ...file, selected: b }]. *)
Definition withType (newType : FileType) (f : FileData) : FileData :=
  {| file := file f; path := path f; type := newType; selected := selected f |}.

Definition withSelected (b : bool) (f : FileData) : FileData :=
  {| file := file f; path := path f; type := type f; selected := b |}.

(** ** Intake stage: classification *)

(** [Object.entries(fileTypeMap)]: the keys are not integer-like, so the
    entries come in insertion order. *)
Definition fileTypeMap : list (string * FileType) :=
  [ ("reference", reference);
    ("references", reference);
    ("ref", reference);
    ("refs", reference);
    ("instruction", instructions);
    ("instructions", instructions);
    ("guide", instructions);
    ("tutorial", instructions);
    ("glossary", glossary);
    ("term", glossary);
    ("terms", glossary);
    ("definitions", glossary) ].

(** The [for ... of] loop of [determineFileType], with its early return. *)
Fixpoint scanEntries (entries : list (string * FileType)) (lowerFileName : string)
  : FileType :=
  match entries with
  | [] => work
  | (keyword, ty) :: rest =>
      if includes lowerFileName keyword then ty else scanEntries rest lowerFileName
  end.

Definition determineFileType (fileName : string) : FileType :=
  let lowerFileName := toLowerCase fileName in
  scanEntries fileTypeMap lowerFileName.

(** The classification as the specification words it: the first pair, in the
    order of the mapping, whose keyword occurs in the lowercased path. *)
Definition firstMatch (entries : list (string * FileType)) (fileName : string)
  : option (string * FileType) :=
  List.find (λ e, includes (toLowerCase fileName) (fst e)) entries.

Definition classifyFirstMatchWins (fileName : string) : FileType :=
  match firstMatch fileTypeMap fileName with
  | Some (_, ty) => ty
  | None => work
  end.

(** ** Intake stage: the updaters of the [files] state cell *)

Definition onDrop (acceptedFiles : list File.t) (prev : list FileData) : list FileData :=
  let newFiles :=
    (λ f,
      let relativePath :=
        orElse (File.path f) (orElse (Some (File.webkitRelativePath f)) (File.name f)) in
      {| file := f; path := relativePath;
         type := determineFileType relativePath; selected := false |})
    <$> acceptedFiles in
  prev ++ newFiles.

(** [prev.map((file, i) => ...)] is [imap]; [index] is a JavaScript number,
    and the handlers receive integers. *)
Definition handleTypeChange (index : Z) (newType : FileType) (prev : list FileData)
  : list FileData :=
  imap (λ i f, if (Z.of_nat i =? index)%Z then withType newType f else f) prev.

Definition handleCheckboxChange (index : Z) (prev : list FileData) : list FileData :=
  imap (λ i f, if (Z.of_nat i =? index)%Z then withSelected (negb (selected f)) f else f) prev.

(** The rows the page model shows: the filter at the ASCII case map. *)
Definition filteredFiles (files : list FileData) (searchTerm : string) : list FileData :=
  filter (λ fileData, includes (toLowerCase (path fileData)) (toLowerCase searchTerm)) files.

Definition selectedFiles (files : list FileData) : list FileData :=
  filter (λ f, selected f) files.

Definition handleBulkTypeChange (newType : FileType) (prev : list FileData) : list FileData :=
  (λ f, if selected f then withType newType f else f) <$> prev.

Definition handleDone (prev : list FileData) : list FileData :=
  withSelected false <$> prev.

Definition handleDeleteSelected (prev : list FileData) : list FileData :=
  filter (λ f, negb (selected f)) prev.

(** ** Blueprints *)

Record TranslationDetails := {
  sourceLanguage : string;
  targetLanguages : list string
}.

Record ReviewDetails := {
  reviewType : option string;
  reviewRounds : option nat
}.

Record QADetails := {
  QAType : string;
  tools : list string
}.

Record Service (D : Type) := {
  enabled : bool;
  details : D
}.
Arguments enabled {D} _.
Arguments details {D} _.

Record Services := {
  translation : Service TranslationDetails;
  review : Service ReviewDetails;
  QA : Service QADetails
}.

(** The record the three components exchange. [sourceLocale] and
    [targetLocales] are the required properties of the page's and the form's
    type; [referenceId] is the form's optional property. *)
Record ProjectBlueprint := {
  name : string;
  creationDate : string;
  workgroup : string;
  division : string;
  product : string;
  program : string;
  requester : string;
  services : Services;
  sourceLocale : string;
  targetLocales : list string;
  referenceId : option string
}.

(** The three entries of the static catalog, in its order. *)
Definition sampleProject : ProjectBlueprint :=
  {| name := "Sample Project";
     creationDate := "2024-12-20";
     workgroup := "Global Workgroup";
     division := "Life Sciences";
     product := "Opal Clinical";
     program := "Clinical Trials Localization";
     requester := "John Doe";
     services :=
       {| translation :=
            {| enabled := true;
               details := {| sourceLanguage := "English";
                             targetLanguages := ["German"; "French"; "Spanish"] |} |};
          review :=
            {| enabled := true;
               details := {| reviewType := Some "Linguistic Review";
                             reviewRounds := Some 2 |} |};
          QA :=
            {| enabled := true;
               details := {| QAType := "Automated QA";
                             tools := ["Xbench"; "Verifika"] |} |} |};
     sourceLocale := "en";
     targetLocales := ["de"; "fr"; "es"];
     referenceId := None |}.

Definition regulatoryComplianceUpdate : ProjectBlueprint :=
  {| name := "Regulatory Compliance Update";
     creationDate := "2024-11-15";
     workgroup := "EMEA Operations";
     division := "Regulatory Affairs";
     product := "Opal Vigilance";
     program := "Pharmacovigilance Reporting";
     requester := "Jane Smith";
     services :=
       {| translation :=
            {| enabled := true;
               details := {| sourceLanguage := "German";
                             targetLanguages := ["English"; "Italian"; "Dutch"] |} |};
          review :=
            {| enabled := false;
               details := {| reviewType := None; reviewRounds := None |} |};
          QA :=
            {| enabled := true;
               details := {| QAType := "Manual QA";
                             tools := ["Human Review Checklist"] |} |} |};
     sourceLocale := "de";
     targetLocales := ["en"; "it"; "nl"];
     referenceId := None |}.

Definition marketingCampaignLocalization : ProjectBlueprint :=
  {| name := "Marketing Campaign Localization";
     creationDate := "2024-10-01";
     workgroup := "Global Marketing";
     division := "Consumer Products";
     product := "Opal Creative";
     program := "Q4 Product Launch";
     requester := "Alice Johnson";
     services :=
       {| translation :=
            {| enabled := true;
               details := {| sourceLanguage := "English";
                             targetLanguages := ["French"; "Spanish"; "Japanese"; "Korean"] |} |};
          review :=
            {| enabled := true;
               details := {| reviewType := Some "Marketing Review";
                             reviewRounds := Some 1 |} |};
          QA :=
            {| enabled := true;
               details := {| QAType := "Hybrid QA";
                             tools := ["Linguistic QA"; "Visual QA"] |} |} |};
     sourceLocale := "en";
     targetLocales := ["fr"; "es"; "ja"; "ko"];
     referenceId := None |}.

Definition blueprints : list ProjectBlueprint :=
  [ sampleProject; regulatoryComplianceUpdate; marketingCampaignLocalization ].

(** ** Blueprint Matcher: the [AnalysisPopup] component *)

Module AnalysisPopup.

(** The three [useState] cells and the timer armed by the effect:
    [Some n] when the callback is due in [n] milliseconds. *)
Record State := {
  isAnalyzing : bool;
  searchTerm : string;
  selectedBlueprint : option ProjectBlueprint;
  timer : option nat
}.

Definition initial : State :=
  {| isAnalyzing := true; searchTerm := ""; selectedBlueprint := None; timer := None |}.

Definition setTimer (t : option nat) (s : State) : State :=
  {| isAnalyzing := isAnalyzing s; searchTerm := searchTerm s;
     selectedBlueprint := selectedBlueprint s; timer := t |}.

Definition setSearchTerm (term : string) (s : State) : State :=
  {| isAnalyzing := isAnalyzing s; searchTerm := term;
     selectedBlueprint := selectedBlueprint s; timer := timer s |}.

Definition setSelectedBlueprint (b : option ProjectBlueprint) (s : State) : State :=
  {| isAnalyzing := isAnalyzing s; searchTerm := searchTerm s;
     selectedBlueprint := b; timer := timer s |}.

Definition setIsAnalyzing (b : bool) (s : State) : State :=
  {| isAnalyzing := b; searchTerm := searchTerm s;
     selectedBlueprint := selectedBlueprint s; timer := timer s |}.

Definition delay : nat := 3000.

(** The body of the effect, which depends on [isOpen] alone. *)
Definition effect (isOpen : bool) (s : State) : State :=
  if isOpen then setTimer (Some delay) s else s.

(** The effect's cleanup, [clearTimeout(timer)]. *)
Definition cleanup (s : State) : State := setTimer None s.

(** The callback given to [setTimeout]; [blueprints[0]] is [undefined] on
    an empty catalog. *)
Definition timerCallback (s : State) : State :=
  setTimer None (setSelectedBlueprint (head blueprints) (setIsAnalyzing false s)).

(** One millisecond passes. *)
Definition tick (s : State) : State :=
  match timer s with
  | None => s
  | Some n => if n <=? 1 then timerCallback s else setTimer (Some (n - 1)) s
  end.

(** The cards the matcher model shows: the filter at the ASCII case map. *)
Definition matches (term : string) (blueprint : ProjectBlueprint) : bool :=
  includes (toLowerCase (name blueprint)) (toLowerCase term) ||
  includes (toLowerCase (workgroup blueprint)) (toLowerCase term) ||
  includes (toLowerCase (division blueprint)) (toLowerCase term) ||
  includes (toLowerCase (product blueprint)) (toLowerCase term) ||
  includes (toLowerCase (program blueprint)) (toLowerCase term) ||
  includes (toLowerCase (requester blueprint)) (toLowerCase term).

Definition filteredBlueprints (s : State) : list ProjectBlueprint :=
  filter (λ blueprint, matches (searchTerm s) blueprint) blueprints.

Definition handleSelectBlueprint (blueprint : ProjectBlueprint) (s : State) : State :=
  setSelectedBlueprint (Some blueprint) s.

(** What [handleConfirmSelection] passes to [onSelectBlueprint], if it
    calls it at all. *)
Definition handleConfirmSelection (s : State) : option ProjectBlueprint :=
  selectedBlueprint s.

(** What the component renders. *)
Inductive Phase := Closed | Analyzing | Presenting.

Definition phase (isOpen : bool) (s : State) : Phase :=
  if negb isOpen then Closed
  else if isAnalyzing s then Analyzing else Presenting.

End AnalysisPopup.

(** ** Review and finalize: the [CheckAndFinalizeForm] component *)

Inductive Completion (A : Type) :=
| Normal (a : A)
| Throw (error : string).
Arguments Normal {A} _.
Arguments Throw {A} _.

(** What a handler leaves behind outside the component state. *)
Inductive Output :=
| ConsoleWarn (message : string)
| ConsoleLog (message : string)
| SaveChangesCalled (updatedBlueprint : ProjectBlueprint).

(** The optional [onSaveChanges] prop as the caller passes it. *)
Inductive SaveProp :=
| PropUndefined
| PropFunction (f : ProjectBlueprint → Completion unit)
| PropNotAFunction.

Module CheckAndFinalizeForm.

Record State := {
  isEditing : bool;
  editableBlueprint : ProjectBlueprint
}.

(** [useState({ ...selectedBlueprint })]. *)
Definition initial (selectedBlueprint : ProjectBlueprint) : State :=
  {| isEditing := false; editableBlueprint := selectedBlueprint |}.

(** The default value of the destructured prop: [onSaveChanges = () => {}]
    replaces [undefined], and nothing else. *)
Definition withDefault (onSaveChanges : SaveProp) : SaveProp :=
  match onSaveChanges with
  | PropUndefined => PropFunction (λ _, Normal tt)
  | p => p
  end.

Definition setIsEditing (b : bool) (s : State) : State :=
  {| isEditing := b; editableBlueprint := editableBlueprint s |}.

Definition toggleEdit (prop : SaveProp) (s : State) : list Output * Completion State :=
  let onSaveChanges := withDefault prop in
  if isEditing s then
    match onSaveChanges with
    | PropFunction f =>
        match f (editableBlueprint s) with
        | Normal _ =>
            ([SaveChangesCalled (editableBlueprint s)],
             Normal (setIsEditing (negb (isEditing s)) s))
        | Throw e => ([SaveChangesCalled (editableBlueprint s)], Throw e)
        end
    | _ =>
        ([ConsoleWarn "onSaveChanges is not a function"],
         Normal (setIsEditing (negb (isEditing s)) s))
    end
  else ([], Normal (setIsEditing (negb (isEditing s)) s)).

(** The controls of edit mode, each [{ ...editableBlueprint, field: value }]. *)
Inductive FieldEdit :=
| SetReferenceId (value : string)
| SetWorkgroup (value : string)
| SetDivision (value : string)
| SetProduct (value : string)
| SetProgram (value : string)
| SetRequester (value : string)
| SetSourceLocale (value : string)
| SetTargetLocales (selectedOptions : list string).

Definition applyEdit (e : FieldEdit) (b : ProjectBlueprint) : ProjectBlueprint :=
  {| name := name b;
     creationDate := creationDate b;
     workgroup := match e with SetWorkgroup v => v | _ => workgroup b end;
     division := match e with SetDivision v => v | _ => division b end;
     product := match e with SetProduct v => v | _ => product b end;
     program := match e with SetProgram v => v | _ => program b end;
     requester := match e with SetRequester v => v | _ => requester b end;
     services := services b;
     sourceLocale := match e with SetSourceLocale v => v | _ => sourceLocale b end;
     targetLocales := match e with SetTargetLocales v => v | _ => targetLocales b end;
     referenceId := match e with SetReferenceId v => Some v | _ => referenceId b end |}.

(** The edit controls exist in edit mode only. *)
Definition edit (e : FieldEdit) (s : State) : State :=
  if isEditing s
  then {| isEditing := isEditing s; editableBlueprint := applyEdit e (editableBlueprint s) |}
  else s.

(** The blueprint details as the read-only branch renders them. *)
Record ReadOnlyView := {
  shownReferenceId : string;
  shownCreationDate : string;
  shownWorkgroup : string;
  shownDivision : string;
  shownProduct : string;
  shownProgram : string;
  shownRequester : string;
  shownSourceLocale : string;
  shownTargetLocales : string
}.

Definition readOnly (b : ProjectBlueprint) : ReadOnlyView :=
  {| shownReferenceId := orElse (referenceId b) "N/A";
     shownCreationDate := creationDate b;
     shownWorkgroup := workgroup b;
     shownDivision := division b;
     shownProduct := product b;
     shownProgram := program b;
     shownRequester := requester b;
     shownSourceLocale := sourceLocale b;
     shownTargetLocales := join ", " (targetLocales b) |}.

(** What the read-only rendering shows of a field once it was edited. *)
Definition shows (e : FieldEdit) (v : ReadOnlyView) : Prop :=
  match e with
  | SetReferenceId value => shownReferenceId v = orElse (Some value) "N/A"
  | SetWorkgroup value => shownWorkgroup v = value
  | SetDivision value => shownDivision v = value
  | SetProduct value => shownProduct v = value
  | SetProgram value => shownProgram v = value
  | SetRequester value => shownRequester v = value
  | SetSourceLocale value => shownSourceLocale v = value
  | SetTargetLocales selectedOptions => shownTargetLocales v = join ", " selectedOptions
  end.

(** [None] while the edit controls are rendered instead. *)
Definition render (s : State) : option ReadOnlyView :=
  if isEditing s then None else Some (readOnly (editableBlueprint s)).

Definition filesByCategory (files : list FileData) (category : FileType) : list FileData :=
  filter (λ f, type f = category) files.

End CheckAndFinalizeForm.

(** ** The root: the [TranslationPortal] page *)

Module TranslationPortal.

Inductive Step := upload | analyze | finalize.

Record State := {
  files : list FileData;
  searchTerm : string;
  isAnalysisPopupOpen : bool;
  selectedBlueprint : option ProjectBlueprint;
  currentStep : Step
}.

Definition initial : State :=
  {| files := []; searchTerm := ""; isAnalysisPopupOpen := false;
     selectedBlueprint := None; currentStep := upload |}.

Definition setFiles (update : list FileData → list FileData) (s : State) : State :=
  {| files := update (files s); searchTerm := searchTerm s;
     isAnalysisPopupOpen := isAnalysisPopupOpen s;
     selectedBlueprint := selectedBlueprint s; currentStep := currentStep s |}.

Definition setSearchTerm (term : string) (s : State) : State :=
  {| files := files s; searchTerm := term;
     isAnalysisPopupOpen := isAnalysisPopupOpen s;
     selectedBlueprint := selectedBlueprint s; currentStep := currentStep s |}.

Definition setIsAnalysisPopupOpen (b : bool) (s : State) : State :=
  {| files := files s; searchTerm := searchTerm s; isAnalysisPopupOpen := b;
     selectedBlueprint := selectedBlueprint s; currentStep := currentStep s |}.

Definition setSelectedBlueprint (b : option ProjectBlueprint) (s : State) : State :=
  {| files := files s; searchTerm := searchTerm s;
     isAnalysisPopupOpen := isAnalysisPopupOpen s;
     selectedBlueprint := b; currentStep := currentStep s |}.

Definition setCurrentStep (step : Step) (s : State) : State :=
  {| files := files s; searchTerm := searchTerm s;
     isAnalysisPopupOpen := isAnalysisPopupOpen s;
     selectedBlueprint := selectedBlueprint s; currentStep := step |}.

Definition handleNext (s : State) : State :=
  setCurrentStep analyze (setIsAnalysisPopupOpen true s).

Definition handleSelectBlueprint (blueprint : ProjectBlueprint) (s : State) : State :=
  setCurrentStep finalize
    (setIsAnalysisPopupOpen false (setSelectedBlueprint (Some blueprint) s)).

Definition handleBack (s : State) : State :=
  setIsAnalysisPopupOpen true (setCurrentStep analyze s).

Definition handleSubmitProject (s : State) : State :=
  setCurrentStep upload (setSelectedBlueprint None (setFiles (λ _, []) s)).

(** [currentStep === 'finalize' && selectedBlueprint]: the blueprint the
    form is rendered with, if the form is what the page renders. *)
Definition rendersForm (s : State) : option ProjectBlueprint :=
  match currentStep s with
  | finalize => selectedBlueprint s
  | _ => None
  end.

End TranslationPortal.

(** ** The mounted component tree *)

(** The page renders either the form alone or the intake page with the
    popup, so exactly one of the two children is mounted. *)
Inductive Child :=
| PopupMounted (s : AnalysisPopup.State)
| FormMounted (s : CheckAndFinalizeForm.State).

Record App := {
  page : TranslationPortal.State;
  child : Child;
  console : list Output
}.

(** React's reconciliation after the page state went from [old] to [new]: a
    child that stays mounted keeps its state and, when [isOpen] changed,
    runs the cleanup that the effect returned (it returns one when [isOpen]
    was true) and the effect again; a child that appears starts from its
    initial state. *)
Definition reconcile (old new : TranslationPortal.State) (c : Child) : Child :=
  let isOpen := TranslationPortal.isAnalysisPopupOpen new in
  match TranslationPortal.rendersForm new with
  | Some blueprint =>
      match c with
      | FormMounted s => FormMounted s
      | PopupMounted _ => FormMounted (CheckAndFinalizeForm.initial blueprint)
      end
  | None =>
      match c with
      | PopupMounted s =>
          let wasOpen := TranslationPortal.isAnalysisPopupOpen old in
          if Bool.eqb wasOpen isOpen
          then PopupMounted s
          else
            let cleaned := if wasOpen then AnalysisPopup.cleanup s else s in
            PopupMounted (AnalysisPopup.effect isOpen cleaned)
      | FormMounted _ =>
          PopupMounted (AnalysisPopup.effect isOpen AnalysisPopup.initial)
      end
  end.

Definition mount : App :=
  {| page := TranslationPortal.initial;
     child := PopupMounted (AnalysisPopup.effect false AnalysisPopup.initial);
     console := [] |}.

Definition updatePage (f : TranslationPortal.State → TranslationPortal.State) (a : App) : App :=
  let new := f (page a) in
  {| page := new; child := reconcile (page a) new (child a); console := console a |}.

Definition updatePopup (f : AnalysisPopup.State → AnalysisPopup.State) (a : App) : App :=
  match child a with
  | PopupMounted s => {| page := page a; child := PopupMounted (f s); console := console a |}
  | FormMounted _ => a
  end.

(** What the user and the clock can do. A row of the table and a card of the
    catalog are named by their position in the rendered (filtered) list. *)
Inductive Event :=
| Drop (acceptedFiles : list File.t)
| SearchFiles (term : string)
| RowCheckbox (row : nat)
| RowTypeChange (row : nat) (newType : FileType)
| ClickDelete
| ClickBulk (newType : FileType)
| ClickDone
| ClickNext
| Tick
| SearchBlueprints (term : string)
| ClickCard (card : nat)
| ClickConfirm
| ClickCancel
| ClickBack
| ClickEdit
| Edit (e : CheckAndFinalizeForm.FieldEdit)
| ClickCreate.

Definition nonEmpty {A} (l : list A) : bool :=
  match l with [] => false | _ :: _ => true end.

(** The intake controls below the drop zone exist once a file exists; the
    bulk buttons are disabled while nothing is selected. *)
Definition intakeStep (e : Event) (a : App) : App :=
  let fs := TranslationPortal.files (page a) in
  let shown := filteredFiles fs (TranslationPortal.searchTerm (page a)) in
  match e with
  | Drop acceptedFiles => updatePage (TranslationPortal.setFiles (onDrop acceptedFiles)) a
  | SearchFiles term =>
      if nonEmpty fs then updatePage (TranslationPortal.setSearchTerm term) a else a
  | RowCheckbox row =>
      if row <? length shown
      then updatePage (TranslationPortal.setFiles (handleCheckboxChange (Z.of_nat row))) a
      else a
  | RowTypeChange row newType =>
      if row <? length shown
      then updatePage (TranslationPortal.setFiles (handleTypeChange (Z.of_nat row) newType)) a
      else a
  | ClickDelete =>
      if nonEmpty (selectedFiles fs)
      then updatePage (TranslationPortal.setFiles handleDeleteSelected) a else a
  | ClickBulk newType =>
      if nonEmpty (selectedFiles fs)
      then updatePage (TranslationPortal.setFiles (handleBulkTypeChange newType)) a else a
  | ClickDone =>
      if nonEmpty (selectedFiles fs)
      then updatePage (TranslationPortal.setFiles handleDone) a else a
  | ClickNext =>
      if nonEmpty fs then updatePage TranslationPortal.handleNext a else a
  | _ => a
  end.

(** The controls of the popup exist while it is open and done analyzing. *)
Definition popupStep (e : Event) (s : AnalysisPopup.State) (a : App) : App :=
  if TranslationPortal.isAnalysisPopupOpen (page a) && negb (AnalysisPopup.isAnalyzing s) then
    match e with
    | SearchBlueprints term => updatePopup (AnalysisPopup.setSearchTerm term) a
    | ClickCard card =>
        match AnalysisPopup.filteredBlueprints s !! card with
        | Some blueprint => updatePopup (AnalysisPopup.handleSelectBlueprint blueprint) a
        | None => a
        end
    | ClickConfirm =>
        match AnalysisPopup.handleConfirmSelection s with
        | Some blueprint => updatePage (TranslationPortal.handleSelectBlueprint blueprint) a
        | None => a
        end
    | ClickCancel => updatePage (TranslationPortal.setIsAnalysisPopupOpen false) a
    | _ => a
    end
  else a.

(** The page renders the form without an [onSaveChanges] prop. *)
Definition formStep (e : Event) (s : CheckAndFinalizeForm.State) (a : App) : App :=
  match e with
  | ClickBack => updatePage TranslationPortal.handleBack a
  | ClickEdit =>
      let '(out, result) := CheckAndFinalizeForm.toggleEdit PropUndefined s in
      {| page := page a;
         child := match result with Normal s' => FormMounted s' | Throw _ => child a end;
         console := console a ++ out |}
  | Edit fe =>
      {| page := page a; child := FormMounted (CheckAndFinalizeForm.edit fe s);
         console := console a |}
  | ClickCreate =>
      let a' := updatePage TranslationPortal.handleSubmitProject a in
      {| page := page a'; child := child a';
         console := console a ++ [ConsoleLog "Submitting project:"] |}
  | _ => a
  end.

Definition step (a : App) (e : Event) : App :=
  match child a with
  | PopupMounted s =>
      match e with
      | Tick => updatePopup AnalysisPopup.tick a
      | SearchBlueprints _ | ClickCard _ | ClickConfirm | ClickCancel => popupStep e s a
      | _ => intakeStep e a
      end
  | FormMounted s => formStep e s a
  end.

Definition run (a : App) (events : list Event) : App := foldl step a events.

(** What the Blueprint Matcher shows. *)
Definition matcherPhase (a : App) : AnalysisPopup.Phase :=
  match child a with
  | PopupMounted s => AnalysisPopup.phase (TranslationPortal.isAnalysisPopupOpen (page a)) s
  | FormMounted _ => AnalysisPopup.Closed
  end.

Definition matcherState (a : App) : option AnalysisPopup.State :=
  match child a with
  | PopupMounted s => Some s
  | FormMounted _ => None
  end.

(** ** The search boxes, over the built-in case map *)

Definition isAsciiChar (c : ascii) : bool :=
  let '(Ascii _ _ _ _ _ _ _ b7) := c in negb b7.

(** Is [s] made of ASCII characters only? *)
Fixpoint isAscii (s : string) : bool :=
  match s with
  | EmptyString => true
  | String c s' => isAsciiChar c && isAscii s'
  end.

(** What the search boxes use of [String.prototype.toLowerCase], which is a
    built-in and not code of the repository: a string of ASCII characters is
    mapped by the ASCII case map, and a run of ASCII characters inside any
    string is mapped to its ASCII lower case, whatever surrounds it. Beyond
    that the built-in is left open: it also maps the letters outside ASCII,
    some of them to ASCII letters or to several characters, and some
    depending on their context. *)
Record JsCaseMap (lower : string → string) : Prop := {
  lower_ascii : ∀ s, isAscii s = true → lower s = toLowerCase s;
  lower_ascii_run : ∀ a b c, isAscii b = true →
    ∃ a' c', lower (a +:+ b +:+ c) = a' +:+ toLowerCase b +:+ c'
}.

(** [lower s] includes [lower term]. *)
Definition occursLowered (lower : string → string) (s term : string) : Prop :=
  ∃ pre post, lower s = pre +:+ lower term +:+ post.

(** [filteredFiles], with the built-in as a parameter. *)
Definition filteredFilesWith (lower : string → string)
    (files : list FileData) (searchTerm : string) : list FileData :=
  filter (λ fileData, includes (lower (path fileData)) (lower searchTerm)) files.

(** [filteredBlueprints] of the matcher, with the built-in as a parameter. *)
Definition matchesWith (lower : string → string) (term : string)
    (blueprint : ProjectBlueprint) : bool :=
  includes (lower (name blueprint)) (lower term) ||
  includes (lower (workgroup blueprint)) (lower term) ||
  includes (lower (division blueprint)) (lower term) ||
  includes (lower (product blueprint)) (lower term) ||
  includes (lower (program blueprint)) (lower term) ||
  includes (lower (requester blueprint)) (lower term).

Definition filteredBlueprintsWith (lower : string → string) (s : AnalysisPopup.State)
  : list ProjectBlueprint :=
  filter (λ blueprint, matchesWith lower (AnalysisPopup.searchTerm s) blueprint) blueprints.

(** ** Reachable states and what holds in them *)

(** The states the mounted page can be in: those a sequence of events leads
    to from [mount]. *)
Definition reachable (a : App) : Prop := ∃ events, a = run mount events.

(** The shape of the component tree and of the matcher's timer. *)
Definition wellFormed (a : App) : Prop :=
  let p := page a in
  (∀ b, TranslationPortal.selectedBlueprint p = Some b → b ∈ blueprints) ∧
  (TranslationPortal.currentStep p = TranslationPortal.upload →
     TranslationPortal.selectedBlueprint p = None) ∧
  (TranslationPortal.isAnalysisPopupOpen p = true →
     TranslationPortal.currentStep p = TranslationPortal.analyze) ∧
  match child a with
  | PopupMounted s =>
      TranslationPortal.currentStep p ≠ TranslationPortal.finalize ∧
      (∀ n, AnalysisPopup.timer s = Some n →
         TranslationPortal.isAnalysisPopupOpen p = true ∧ 1 ≤ n ≤ AnalysisPopup.delay) ∧
      (AnalysisPopup.isAnalyzing s = true →
         AnalysisPopup.selectedBlueprint s = None ∧ AnalysisPopup.searchTerm s = "" ∧
         (TranslationPortal.isAnalysisPopupOpen p = true → is_Some (AnalysisPopup.timer s))) ∧
      (AnalysisPopup.isAnalyzing s = false →
         ∃ b, AnalysisPopup.selectedBlueprint s = Some b ∧ b ∈ blueprints)
  | FormMounted _ =>
      TranslationPortal.currentStep p = TranslationPortal.finalize ∧
      TranslationPortal.isAnalysisPopupOpen p = false ∧
      is_Some (TranslationPortal.selectedBlueprint p)
  end.

(** The first truthy of [file.path], [file.webkitRelativePath], [file.name],
    case by case. *)
Definition relativePathOf (f : File.t) (p : string) : Prop :=
  match File.path f with
  | Some (String c q) => p = String c q
  | _ =>
      match File.webkitRelativePath f with
      | String c q => p = String c q
      | EmptyString => p = File.name f
      end
  end.

(** Do two edits come from the same control of the form? *)
Definition sameField (e1 e2 : CheckAndFinalizeForm.FieldEdit) : bool :=
  match e1, e2 with
  | CheckAndFinalizeForm.SetReferenceId _, CheckAndFinalizeForm.SetReferenceId _
  | CheckAndFinalizeForm.SetWorkgroup _, CheckAndFinalizeForm.SetWorkgroup _
  | CheckAndFinalizeForm.SetDivision _, CheckAndFinalizeForm.SetDivision _
  | CheckAndFinalizeForm.SetProduct _, CheckAndFinalizeForm.SetProduct _
  | CheckAndFinalizeForm.SetProgram _, CheckAndFinalizeForm.SetProgram _
  | CheckAndFinalizeForm.SetRequester _, CheckAndFinalizeForm.SetRequester _
  | CheckAndFinalizeForm.SetSourceLocale _, CheckAndFinalizeForm.SetSourceLocale _
  | CheckAndFinalizeForm.SetTargetLocales _, CheckAndFinalizeForm.SetTargetLocales _ => true
  | _, _ => false
  end.

(** The events of the form's edit mode: the "Edit"/"Save" button and the
    edit controls. *)
Definition formEvent (e : Event) : Prop := e = ClickEdit ∨ ∃ fe, e = Edit fe.

(** ** Sample data, for the concrete instances of the theorems *)

Definition sampleFile (n : string) : File.t :=
  {| File.name := n; File.size := 2048; File.path := None; File.webkitRelativePath := "" |}.

Definition sampleFiles : list FileData :=
  [ {| file := sampleFile "a.docx"; path := "a.docx"; type := work; selected := true |};
    {| file := sampleFile "terms.csv"; path := "terms.csv"; type := glossary; selected := false |};
    {| file := sampleFile "b.docx"; path := "docs/Reference/b.docx"; type := reference;
       selected := true |} ].

(** The intake page after a drop of two files and a click on the first
    checkbox. *)
Definition sampleIntake : App :=
  run mount [Drop [sampleFile "terms.csv"; sampleFile "Chapter1.docx"]; RowCheckbox 0].

(** The form in edit mode on the first catalog entry. *)
Definition sampleReview : CheckAndFinalizeForm.State :=
  {| CheckAndFinalizeForm.isEditing := true;
     CheckAndFinalizeForm.editableBlueprint := sampleProject |}.

(** A session up to the review stage: a drop, a search, "Next", the delay,
    "Confirm". *)
Definition reviewEvents : list Event :=
  [Drop [sampleFile "terms.csv"]; SearchFiles "terms"; ClickNext] ++ repeat Tick 3000
  ++ [ClickConfirm].

(** * Properties *)

(** ** Strings *)

Section Strings.

Lemma append_cons (c : ascii) (a b : string) : String c a +:+ b = String c (a +:+ b).
Proof. reflexivity. Qed.

Lemma append_assoc (a b c : string) : (a +:+ b) +:+ c = a +:+ b +:+ c.
Proof.
  induction a as [|x a IH]; [done|]. by rewrite !append_cons, IH.
Qed.

Lemma toLowerCase_app (a b : string) :
  toLowerCase (a +:+ b) = toLowerCase a +:+ toLowerCase b.
Proof.
  induction a as [|c a IH]; [done|].
  rewrite append_cons. simpl. by rewrite IH, append_cons.
Qed.

(** A split of the lowercased string comes from a split of the string. *)
Lemma toLowerCase_app_inv (s a b : string) :
  toLowerCase s = a +:+ b →
  ∃ s1 s2, s = s1 +:+ s2 ∧ toLowerCase s1 = a ∧ toLowerCase s2 = b.
Proof.
  revert s. induction a as [|c a IH]; intros s Hs.
  - by exists "", s.
  - rewrite append_cons in Hs. destruct s as [|d s]; simpl in Hs; [done|].
    injection Hs as Hc Hs. destruct (IH _ Hs) as (s1 & s2 & -> & H1 & H2).
    exists (String d s1), s2. simpl. by rewrite Hc, H1.
Qed.

Lemma startsWith_spec (s t : string) :
  startsWith s t = true ↔ ∃ post, s = t +:+ post.
Proof.
  revert s. induction t as [|c t IH]; intros s; simpl.
  - split; [by exists s | done].
  - destruct s as [|d s].
    + split; [done | by intros [post ?]].
    + destruct (Ascii.eqb_spec c d) as [->|Hne].
      * rewrite IH. split; intros [post Hp]; exists post.
        -- by rewrite append_cons, Hp.
        -- rewrite append_cons in Hp. congruence.
      * split; [done | intros [post Hp]; rewrite append_cons in Hp; congruence].
Qed.

Lemma includes_spec (s t : string) :
  includes s t = true ↔ ∃ pre post, s = pre +:+ t +:+ post.
Proof.
  induction s as [|d s IH]; simpl.
  - rewrite orb_false_r, startsWith_spec. split.
    + intros [post Hp]. by exists "", post.
    + intros ([|? ?] & post & Hp); [by exists post | done].
  - rewrite orb_true_iff, startsWith_spec, IH. split.
    + intros [[post Hp] | (pre & post & Hp)].
      * by exists "", post.
      * exists (String d pre), post. by rewrite append_cons, Hp.
    + intros ([|x pre] & post & Hp).
      * left. by exists post.
      * right. rewrite append_cons in Hp. injection Hp as _ Hp. by exists pre, post.
Qed.

Lemma includes_empty (s : string) : includes s "" = true.
Proof. by destruct s. Qed.

(** [toLowerCase] on both sides is a case-insensitive substring test. *)
Lemma includes_toLowerCase (s k : string) :
  includes (toLowerCase s) (toLowerCase k) = true ↔ containsIgnoreCase s k.
Proof.
  rewrite includes_spec. split.
  - intros (pre & post & Hs).
    apply toLowerCase_app_inv in Hs as (s1 & s' & -> & _ & Hs).
    apply toLowerCase_app_inv in Hs as (u & s3 & -> & Hu & _).
    by exists s1, u, s3.
  - intros (pre & u & post & -> & Hu).
    exists (toLowerCase pre), (toLowerCase post).
    by rewrite !toLowerCase_app, Hu.
Qed.

Lemma includes_lowercase_keyword (s k : string) :
  toLowerCase k = k →
  includes (toLowerCase s) k = true ↔ containsIgnoreCase s k.
Proof. intros Hk. by rewrite <- includes_toLowerCase, Hk. Qed.

(** An occurrence of a word contains an occurrence of each of its prefixes. *)
Lemma containsIgnoreCase_prefix (s k1 k2 : string) :
  containsIgnoreCase s (k1 +:+ k2) → containsIgnoreCase s k1.
Proof.
  intros (pre & u & post & -> & Hu). rewrite toLowerCase_app in Hu.
  apply toLowerCase_app_inv in Hu as (u1 & u2 & -> & H1 & _).
  exists pre, u1, (u2 +:+ post). by rewrite append_assoc.
Qed.

End Strings.

(** ** Classification by file name *)

Section Classification.

Example classify_glossary : determineFileType "Project_Glossary_v2.xlsx" = glossary.
Proof. reflexivity. Qed.

Example classify_instructions : determineFileType "readme_instructions.txt" = instructions.
Proof. reflexivity. Qed.

Example classify_work : determineFileType "chapter1.docx" = work.
Proof. reflexivity. Qed.

Example classify_terms : determineFileType "terms.csv" = glossary.
Proof. reflexivity. Qed.

(** The keywords are written in lower case. *)
Lemma fileTypeMap_lowercase (keyword : string) (ty : FileType) :
  (keyword, ty) ∈ fileTypeMap → toLowerCase keyword = keyword.
Proof.
  unfold fileTypeMap. rewrite !elem_of_cons, elem_of_nil.
  intros H. repeat (destruct H as [H|H]; [by injection H as -> _|]). done.
Qed.

(** The loop returns at the first entry whose keyword occurs. *)
Lemma scanEntries_first (entries : list (string * FileType)) (lowerFileName : string)
    (i : nat) (keyword : string) (ty : FileType) :
  entries !! i = Some (keyword, ty) →
  includes lowerFileName keyword = true →
  (∀ j e, j < i → entries !! j = Some e → includes lowerFileName e.1 = false) →
  scanEntries entries lowerFileName = ty.
Proof.
  revert i. induction entries as [|[k0 t0] rest IH]; intros i Hi Hin Hbefore; [done|].
  simpl. destruct i as [|i].
  - injection Hi as -> ->. by rewrite Hin.
  - assert (includes lowerFileName k0 = false) as ->.
    { apply (Hbefore 0 (k0, t0)); [lia|done]. }
    apply (IH i); [done..|].
    intros j e Hj He. apply (Hbefore (S j) e); [lia|done].
Qed.

Lemma scanEntries_none (entries : list (string * FileType)) (lowerFileName : string) :
  (∀ e, e ∈ entries → includes lowerFileName e.1 = false) →
  scanEntries entries lowerFileName = work.
Proof.
  induction entries as [|[k0 t0] rest IH]; intros Hnone; [done|].
  simpl. assert (includes lowerFileName k0 = false) as ->.
  { apply (Hnone (k0, t0)). left. }
  apply IH. intros e He. apply Hnone. by right.
Qed.

(** The loop returns a tag on which an occurring keyword and all the
    occurring keywords before it agree. *)
Lemma scanEntries_agree (entries : list (string * FileType)) (lowerFileName : string)
    (i : nat) (keyword : string) (ty : FileType) :
  entries !! i = Some (keyword, ty) →
  includes lowerFileName keyword = true →
  (∀ j keyword' ty', j < i → entries !! j = Some (keyword', ty') →
     includes lowerFileName keyword' = true → ty' = ty) →
  scanEntries entries lowerFileName = ty.
Proof.
  revert i. induction entries as [|[k0 t0] rest IH]; intros i Hi Hin Hbefore; [done|].
  simpl. destruct (includes lowerFileName k0) eqn:Hk0.
  - destruct i as [|i].
    + by injection Hi as _ ->.
    + apply (Hbefore 0 k0 t0); [lia|done..].
  - destruct i as [|i].
    + injection Hi as -> _. congruence.
    + apply (IH i); [done..|].
      intros j k' t' Hj He. apply (Hbefore (S j)); [lia|done].
Qed.

Lemma scanEntries_firstMatch (entries : list (string * FileType)) (fileName : string) :
  scanEntries entries (toLowerCase fileName) =
    match firstMatch entries fileName with
    | Some (_, ty) => ty
    | None => work
    end.
Proof.
  unfold firstMatch. induction entries as [|[k0 t0] rest IH]; [done|].
  simpl. by destruct (includes (toLowerCase fileName) k0).
Qed.

(** C5: the classification is the first-match-wins evaluation of the ordered
    keyword-to-tag pairs against the lowercased path: it agrees with
    [classifyFirstMatchWins]; the tag returned is that of the earliest pair
    of the mapping whose keyword occurs in the lowercased path, whatever
    later pairs match; and it is [work] when no keyword occurs. *)
Theorem determineFileType_first_match_wins (fileName : string) :
  determineFileType fileName = classifyFirstMatchWins fileName ∧
  (∀ i keyword ty,
     fileTypeMap !! i = Some (keyword, ty) →
     includes (toLowerCase fileName) keyword = true →
     (∀ j e, j < i → fileTypeMap !! j = Some e →
        includes (toLowerCase fileName) e.1 = false) →
     determineFileType fileName = ty) ∧
  ((∀ e, e ∈ fileTypeMap → includes (toLowerCase fileName) e.1 = false) →
   determineFileType fileName = work).
Proof.
  split; [|split].
  - apply scanEntries_firstMatch.
  - intros i keyword ty. apply scanEntries_first.
  - apply scanEntries_none.
Qed.

(** Two keywords occur in "my_terms_for_the_guide.txt": "guide" (entry 6)
    comes before "term" (entry 9) and wins. *)
Lemma determineFileType_first_match_wins_witness :
  determineFileType "my_terms_for_the_guide.txt" = instructions.
Proof.
  apply (proj1 (proj2 (determineFileType_first_match_wins "my_terms_for_the_guide.txt"))
           6 "guide" instructions).
  - reflexivity.
  - reflexivity.
  - intros j e Hj He.
    do 6 (destruct j as [|j]; [injection He as <-; reflexivity|]). lia.
Defined.

(** C1, as stated, fails: "term_ref" contains the keyword "term", mapped to
    [glossary], and is classified [reference], because "ref" comes first. *)
Lemma determineFileType_not_every_keyword :
  ¬ (∀ fileName keyword ty,
       (keyword, ty) ∈ fileTypeMap →
       containsIgnoreCase fileName keyword →
       determineFileType fileName = ty).
Proof.
  intros H. specialize (H "term_ref" "term" glossary).
  assert (determineFileType "term_ref" = glossary) as Hbad; [|done].
  apply H.
  - unfold fileTypeMap. do 9 right. left.
  - by exists "", "term", "_ref".
Qed.

(** C1, amended: a file name that contains, in any case, a keyword of the
    mapping gets the tag of that keyword provided the keywords before it in
    the mapping that the name also contains have that same tag; a file name
    that contains no keyword gets [work]. *)
Theorem determineFileType_keyword (fileName : string) :
  (∀ i keyword ty,
     fileTypeMap !! i = Some (keyword, ty) →
     containsIgnoreCase fileName keyword →
     (∀ j keyword' ty', j < i → fileTypeMap !! j = Some (keyword', ty') →
        containsIgnoreCase fileName keyword' → ty' = ty) →
     determineFileType fileName = ty) ∧
  ((∀ keyword ty, (keyword, ty) ∈ fileTypeMap → ¬ containsIgnoreCase fileName keyword) →
   determineFileType fileName = work).
Proof.
  split.
  - intros i keyword ty Hi Hin Hbefore.
    apply (scanEntries_agree _ _ i keyword); [done| |].
    + apply includes_lowercase_keyword; [|done].
      apply (fileTypeMap_lowercase keyword ty), list_elem_of_lookup. by exists i.
    + intros j k' t' Hj He Hk'. apply (Hbefore j k'); [done..|].
      apply includes_lowercase_keyword; [|done].
      apply (fileTypeMap_lowercase k' t'), list_elem_of_lookup. by exists j.
  - intros Hnone. apply scanEntries_none. intros [k t] He.
    destruct (includes (toLowerCase fileName) k) eqn:Hk; [|done].
    destruct (Hnone k t He).
    apply includes_lowercase_keyword; [|done]. by apply (fileTypeMap_lowercase k t).
Qed.

(** "Notes_GLOSSARY_and_Terms.xlsx" contains "glossary" (entry 8) and "term"
    (entry 9), both mapped to [glossary], and no keyword of another tag. *)
Lemma determineFileType_keyword_witness :
  determineFileType "Notes_GLOSSARY_and_Terms.xlsx" = glossary.
Proof.
  apply (proj1 (determineFileType_keyword "Notes_GLOSSARY_and_Terms.xlsx")
           9 "term" glossary).
  - reflexivity.
  - by exists "Notes_GLOSSARY_and_", "Term", "s.xlsx".
  - intros j k' t' Hj He Hin.
    assert (includes (toLowerCase "Notes_GLOSSARY_and_Terms.xlsx") (toLowerCase k') = true)
      as Hk' by (by apply includes_toLowerCase).
    do 9 (destruct j as [|j];
          [injection He as <- <-; first [reflexivity | discriminate Hk']|]).
    lia.
Defined.

End Classification.

(** ** Intake stage: the file list *)

Section Intake.

Implicit Types (files : list FileData) (f : FileData) (newType : FileType).

(** A callback that acts on an index which no element has changes nothing. *)
Lemma imap_untouched {A} (g : nat → A → A) (l : list A) :
  (∀ i x, l !! i = Some x → g i x = x) → imap g l = l.
Proof.
  intros Hg. apply list_eq. intros i. rewrite list_lookup_imap.
  destruct (l !! i) as [x|] eqn:Hi; [|done]. simpl. by rewrite (Hg i x).
Qed.

(** C6: bulk set classification keeps the length and the positions; at each
    position, a file whose selection flag is true gets the new tag and keeps
    its handle, path and selection flag, and any other file is unchanged. *)
Theorem handleBulkTypeChange_exactly_selected files newType :
  length (handleBulkTypeChange newType files) = length files ∧
  ∀ i f, files !! i = Some f →
    ∃ f', handleBulkTypeChange newType files !! i = Some f' ∧
      (selected f = true →
         type f' = newType ∧ file f' = file f ∧ path f' = path f ∧
         selected f' = selected f) ∧
      (selected f = false → f' = f).
Proof.
  unfold handleBulkTypeChange. split; [apply length_fmap|].
  intros i f Hi. rewrite list_lookup_fmap, Hi. simpl.
  eexists; split; [done|]. by destruct (selected f) eqn:Hf; split; intros; simplify_eq.
Qed.

Lemma handleBulkTypeChange_exactly_selected_witness :
  ∃ f', handleBulkTypeChange instructions sampleFiles !! 2 = Some f' ∧
    type f' = instructions ∧ path f' = "docs/Reference/b.docx" ∧ selected f' = true.
Proof.
  destruct (proj2 (handleBulkTypeChange_exactly_selected sampleFiles instructions) 2
              {| file := sampleFile "b.docx"; path := "docs/Reference/b.docx";
                 type := reference; selected := true |} eq_refl)
    as (f' & Hf' & Hsel & _).
  destruct (Hsel eq_refl) as (Hty & _ & Hpath & Hs).
  exists f'. by rewrite Hf', Hty, Hpath, Hs.
Defined.

Lemma elem_of_handleDeleteSelected files f :
  f ∈ handleDeleteSelected files ↔ f ∈ files ∧ selected f = false.
Proof.
  unfold handleDeleteSelected. rewrite list_elem_of_filter.
  destruct (selected f); simpl; intuition congruence.
Qed.

(** C7: delete-selected leaves a sublist of the file list (the remaining
    files are in their original relative order), made of exactly the files
    whose selection flag is false, and the number of files removed is the
    number of selected files. *)
Theorem handleDeleteSelected_exact files :
  handleDeleteSelected files `sublist_of` files ∧
  (∀ f, f ∈ handleDeleteSelected files ↔ f ∈ files ∧ selected f = false) ∧
  length (handleDeleteSelected files) + length (selectedFiles files) = length files.
Proof.
  unfold handleDeleteSelected, selectedFiles. split; [|split].
  - apply sublist_filter.
  - intros f. apply elem_of_handleDeleteSelected.
  - induction files as [|f files IH]; [done|].
    rewrite !filter_cons. destruct (selected f) eqn:Hf; simpl; lia.
Qed.

(** C8: "Done" keeps the length and the positions; at each position the
    file has its selection flag false and its tag, path and handle as
    before. *)
Theorem handleDone_clears_selection_only files :
  length (handleDone files) = length files ∧
  ∀ i f, files !! i = Some f →
    ∃ f', handleDone files !! i = Some f' ∧
      selected f' = false ∧ type f' = type f ∧ path f' = path f ∧ file f' = file f.
Proof.
  unfold handleDone. split; [apply length_fmap|].
  intros i f Hi. rewrite list_lookup_fmap, Hi. simpl. by eexists.
Qed.

Lemma handleDone_clears_selection_only_witness :
  ∃ f', handleDone sampleFiles !! 0 = Some f' ∧
    selected f' = false ∧ type f' = work ∧ path f' = "a.docx".
Proof.
  destruct (proj2 (handleDone_clears_selection_only sampleFiles) 0
              {| file := sampleFile "a.docx"; path := "a.docx"; type := work;
                 selected := true |} eq_refl)
    as (f' & Hf' & Hs & Hty & Hpath & _).
  exists f'. by rewrite Hf', Hs, Hty, Hpath.
Defined.

(** C10: with an index that is negative or at least the length of the list,
    set classification and toggle selection return the list as it is; both
    are total functions, so nothing is raised. *)
Theorem handlers_index_out_of_range files (index : Z) newType :
  (index < 0 ∨ Z.of_nat (length files) ≤ index)%Z →
  handleTypeChange index newType files = files ∧
  handleCheckboxChange index files = files.
Proof.
  intros Hrange.
  assert (∀ i f, files !! i = Some f → (Z.of_nat i =? index)%Z = false) as Hne.
  { intros i f Hi%lookup_lt_Some. apply Z.eqb_neq. lia. }
  split; apply imap_untouched; intros i f Hi; by rewrite (Hne i f Hi).
Qed.

Lemma handlers_index_out_of_range_witness :
  (handleTypeChange 3 glossary sampleFiles = sampleFiles ∧
   handleCheckboxChange 3 sampleFiles = sampleFiles) ∧
  (handleTypeChange (-1) glossary sampleFiles = sampleFiles ∧
   handleCheckboxChange (-1) sampleFiles = sampleFiles).
Proof.
  split.
  - apply (handlers_index_out_of_range sampleFiles 3 glossary). right. simpl. lia.
  - apply (handlers_index_out_of_range sampleFiles (-1) glossary). left. lia.
Defined.

End Intake.

(** ** Intake stage: search and selection on the page *)

Section IntakePage.

Implicit Types (files : list FileData) (f : FileData) (a : App).

(** The handlers of the page that do not go through [setFiles] leave the
    file list alone. *)
Lemma step_SearchFiles_files a term :
  TranslationPortal.files (page (step a (SearchFiles term))) = TranslationPortal.files (page a).
Proof.
  unfold step. destruct (child a); simpl; [|done].
  by destruct (nonEmpty _).
Qed.

Lemma step_ClickNext_files a :
  TranslationPortal.files (page (step a ClickNext)) = TranslationPortal.files (page a).
Proof.
  unfold step. destruct (child a); simpl; [|done].
  by destruct (nonEmpty _).
Qed.

(** The end-to-end example: "terms.csv" is dropped and classified
    [glossary]; selected and bulk-set, it is a [reference]; deleted, it
    leaves the list empty. *)
Example drop_select_bulk_delete :
  let dropped := run mount [Drop [sampleFile "terms.csv"]] in
  type <$> TranslationPortal.files (page dropped) = [glossary] ∧
  type <$> TranslationPortal.files (page (run dropped [RowCheckbox 0; ClickBulk reference]))
    = [reference] ∧
  TranslationPortal.files
    (page (run dropped [RowCheckbox 0; ClickBulk reference; ClickDelete])) = [].
Proof. by vm_compute. Qed.

Lemma filteredFiles_empty_term files : filteredFiles files "" = files.
Proof.
  unfold filteredFiles. induction files as [|f files IH]; [done|].
  rewrite filter_cons_True, IH; [done|].
  simpl. by rewrite includes_empty.
Qed.

(** The ASCII case map has the properties asked of the built-in. *)
Lemma toLowerCase_JsCaseMap : JsCaseMap toLowerCase.
Proof.
  split; [done|]. intros a b c _.
  exists (toLowerCase a), (toLowerCase c). by rewrite !toLowerCase_app.
Qed.

Lemma isAsciiChar_toLowerAscii (c : ascii) : isAsciiChar (toLowerAscii c) = isAsciiChar c.
Proof. destruct c as [[] [] [] [] [] [] [] []]; reflexivity. Qed.

Lemma isAscii_toLowerCase (s : string) : isAscii (toLowerCase s) = isAscii s.
Proof.
  induction s as [|c s IH]; simpl; [done|]. by rewrite isAsciiChar_toLowerAscii, IH.
Qed.

Lemma filter_all {A} (P : A → Prop) `{!∀ x, Decision (P x)} (l : list A) :
  (∀ x, x ∈ l → P x) → filter P l = l.
Proof.
  induction l as [|x l IH]; intros Hall; [done|].
  rewrite filter_cons_True by (apply Hall; left).
  rewrite IH; [done|]. intros y Hy. apply Hall. by right.
Qed.

Lemma includes_occursLowered (lower : string → string) (s term : string) :
  includes (lower s) (lower term) = true ↔ occursLowered lower s term.
Proof. apply includes_spec. Qed.

(** A string that contains an ASCII word up to case is lowered, by the
    built-in too, to a string that includes the lowered word. *)
Lemma occursLowered_ascii (lower : string → string) (s term : string) :
  JsCaseMap lower → isAscii term = true →
  containsIgnoreCase s term → occursLowered lower s term.
Proof.
  intros Hlower Hterm (pre & u & post & -> & Hu).
  assert (isAscii u = true) as Hascii.
  { by rewrite <- isAscii_toLowerCase, Hu, isAscii_toLowerCase. }
  destruct (lower_ascii_run lower Hlower pre u post Hascii) as (pre' & post' & Hrun).
  exists pre', post'. by rewrite Hrun, Hu, (lower_ascii lower Hlower term Hterm).
Qed.

(** On ASCII strings the built-in decides the occurrence up to case. *)
Lemma occursLowered_ascii_iff (lower : string → string) (s term : string) :
  JsCaseMap lower → isAscii s = true → isAscii term = true →
  occursLowered lower s term ↔ containsIgnoreCase s term.
Proof.
  intros Hlower Hs Hterm. unfold occursLowered.
  rewrite (lower_ascii lower Hlower s Hs), (lower_ascii lower Hlower term Hterm).
  by rewrite <- includes_spec, includes_toLowerCase.
Qed.

(** C9: whatever the built-in case map does outside ASCII, the empty search
    term shows the whole file list; a file is shown exactly when its lowered
    path includes the lowered term, so that terms that differ in case only
    show the same files, a file with an ASCII path is shown for an ASCII
    term exactly when its path contains the term up to case, and "REF"
    shows every file whose path contains "reference" in any case; what is
    shown is a sublist of the file list, and searching leaves the [files]
    cell of the page as it is. *)
Theorem filteredFiles_search (lower : string → string) files :
  JsCaseMap lower →
  filteredFilesWith lower files "" = files ∧
  (∀ term f, f ∈ filteredFilesWith lower files term ↔
     f ∈ files ∧ occursLowered lower (path f) term) ∧
  (∀ term1 term2, lower term1 = lower term2 →
     filteredFilesWith lower files term1 = filteredFilesWith lower files term2) ∧
  (∀ term f, isAscii term = true → isAscii (path f) = true →
     (f ∈ filteredFilesWith lower files term ↔
        f ∈ files ∧ containsIgnoreCase (path f) term)) ∧
  (∀ f, f ∈ files → containsIgnoreCase (path f) "reference" →
     f ∈ filteredFilesWith lower files "REF") ∧
  (∀ term, filteredFilesWith lower files term `sublist_of` files) ∧
  (∀ a term, TranslationPortal.files (page a) = files →
     TranslationPortal.files (page (step a (SearchFiles term))) = files).
Proof.
  intros Hlower.
  assert (∀ term f, f ∈ filteredFilesWith lower files term ↔
            f ∈ files ∧ occursLowered lower (path f) term) as Hshown.
  { intros term f. unfold filteredFilesWith.
    rewrite list_elem_of_filter, Is_true_true, includes_occursLowered. tauto. }
  split_and!.
  - unfold filteredFilesWith. apply filter_all. intros f _.
    rewrite (lower_ascii lower Hlower "" eq_refl). simpl. by rewrite includes_empty.
  - done.
  - intros term1 term2 Hterms. unfold filteredFilesWith. by rewrite Hterms.
  - intros term f Hterm Hpath.
    by rewrite Hshown, (occursLowered_ascii_iff lower _ _ Hlower Hpath Hterm).
  - intros f Hf Href. apply Hshown. split; [done|].
    change "reference" with ("ref" +:+ "erence") in Href.
    apply containsIgnoreCase_prefix in Href.
    apply (occursLowered_ascii lower _ "REF" Hlower eq_refl).
    destruct Href as (pre & u & post & Hpath & Hu). by exists pre, u, post.
  - intros term. apply sublist_filter.
  - intros a term <-. apply step_SearchFiles_files.
Qed.

(** At the ASCII case map, which is the page model's: "REF" shows the one
    sample file under "docs/Reference/". *)
Lemma filteredFiles_search_witness :
  filteredFilesWith toLowerCase sampleFiles "REF" = filteredFiles sampleFiles "REF" ∧
  {| file := sampleFile "b.docx"; path := "docs/Reference/b.docx"; type := reference;
     selected := true |} ∈ filteredFilesWith toLowerCase sampleFiles "REF" ∧
  TranslationPortal.files (page (step sampleIntake (SearchFiles "REF"))) =
    TranslationPortal.files (page sampleIntake).
Proof.
  split; [reflexivity|]. split.
  - apply (proj1 (proj2 (proj2 (proj2 (proj2
      (filteredFiles_search toLowerCase sampleFiles toLowerCase_JsCaseMap)))))).
    + do 2 right. left.
    + by exists "docs/", "Reference", "/b.docx".
  - apply (proj2 (proj2 (proj2 (proj2 (proj2 (proj2
      (filteredFiles_search toLowerCase (TranslationPortal.files (page sampleIntake))
         toLowerCase_JsCaseMap))))))
      sampleIntake "REF").
    reflexivity.
Defined.

(** C4, as stated, fails: after bulk set classification the selected files
    are still selected, and so they are after "Next". *)
Lemma selection_survives_bulk_and_next :
  ¬ (∀ f, f ∈ handleBulkTypeChange reference sampleFiles → selected f = false) ∧
  ¬ (∀ f, f ∈ TranslationPortal.files (page (step sampleIntake ClickNext)) →
          selected f = false).
Proof.
  split; intros H.
  - specialize (H {| file := sampleFile "a.docx"; path := "a.docx"; type := reference;
                     selected := true |}).
    discriminate H. left.
  - specialize (H {| file := sampleFile "terms.csv"; path := "terms.csv"; type := glossary;
                     selected := true |}).
    discriminate H. left.
Qed.

(** C4, amended: after delete-selected the selection flag of every remaining
    file is false; bulk set classification and "Next" leave the selection
    flag of every file as it was. *)
Theorem selection_after_actions files :
  (∀ f, f ∈ handleDeleteSelected files → selected f = false) ∧
  (∀ newType, selected <$> handleBulkTypeChange newType files = selected <$> files) ∧
  (∀ a, TranslationPortal.files (page a) = files →
     TranslationPortal.files (page (step a ClickNext)) = files).
Proof.
  split; [|split].
  - intros f Hf. by apply elem_of_handleDeleteSelected in Hf as [_ Hf].
  - intros newType. unfold handleBulkTypeChange. rewrite <- list_fmap_compose.
    apply list_fmap_ext. intros i f _. simpl. by destruct (selected f) eqn:Hf.
  - intros a <-. apply step_ClickNext_files.
Qed.

Lemma selection_after_actions_witness :
  Forall (λ f, selected f = false) (handleDeleteSelected sampleFiles) ∧
  TranslationPortal.files (page (step sampleIntake ClickNext)) =
    TranslationPortal.files (page sampleIntake).
Proof.
  split.
  - apply Forall_forall, (proj1 (selection_after_actions sampleFiles)).
  - apply (proj2 (proj2 (selection_after_actions _)) sampleIntake). reflexivity.
Defined.

End IntakePage.

(** ** Review stage: leaving edit mode *)

Section Review.

Import CheckAndFinalizeForm.

Implicit Types (s : State) (e : FieldEdit) (prop : SaveProp).

Lemma edit_isEditing e s : isEditing (edit e s) = isEditing s.
Proof. unfold edit. by destruct (isEditing s) eqn:Hs. Qed.

Lemma edits_isEditing (es : list FieldEdit) s :
  isEditing (foldl (λ st e, edit e st) s es) = isEditing s.
Proof.
  revert s. induction es as [|e es IH]; intros s; [done|].
  simpl. by rewrite IH, edit_isEditing.
Qed.

Lemma readOnly_shows e (b : ProjectBlueprint) : shows e (readOnly (applyEdit e b)).
Proof. by destruct e. Qed.

(** Which calls of [toggleEdit] write the warning. *)
Lemma toggleEdit_warns prop s :
  (∃ message, ConsoleWarn message ∈ (toggleEdit prop s).1) ↔
  isEditing s = true ∧ prop = PropNotAFunction.
Proof.
  unfold toggleEdit. split.
  - intros [message Hin]. destruct (isEditing s); simpl in Hin.
    + destruct prop as [|g|]; simpl in Hin; [| |done].
      * by apply list_elem_of_singleton in Hin.
      * destruct (g _); by apply list_elem_of_singleton in Hin.
    + by apply elem_of_nil in Hin.
  - intros [-> ->]. simpl. eexists. by apply list_elem_of_singleton.
Qed.

(** C3, as stated, fails: without an [onSaveChanges] prop its default value
    is called and nothing is written to the console. *)
Lemma toggleEdit_absent_collaborator_no_warning :
  toggleEdit PropUndefined sampleReview =
    ([SaveChangesCalled sampleProject], Normal (setIsEditing false sampleReview)) ∧
  ¬ (∃ message, ConsoleWarn message ∈ (toggleEdit PropUndefined sampleReview).1).
Proof.
  split; [reflexivity|].
  rewrite toggleEdit_warns. by intros [_ ?].
Qed.

(** C3, amended: without an [onSaveChanges] prop, leaving edit mode calls the
    default no-op with the edited blueprint and writes no warning; it
    completes normally, in read-only mode, and the read-only rendering is
    that of the locally edited blueprint, showing the field edited last. *)
Theorem toggleEdit_without_collaborator s (es : list FieldEdit) e :
  isEditing s = true →
  let edited := foldl (λ st e, edit e st) s (es ++ [e]) in
  ∃ s' view,
    toggleEdit PropUndefined edited =
      ([SaveChangesCalled (editableBlueprint edited)], Normal s') ∧
    isEditing s' = false ∧
    editableBlueprint s' = editableBlueprint edited ∧
    render s' = Some view ∧
    view = readOnly (editableBlueprint edited) ∧
    shows e view.
Proof.
  intros Hs edited.
  assert (isEditing edited = true) as Hedited.
  { unfold edited. by rewrite edits_isEditing. }
  exists (setIsEditing false edited), (readOnly (editableBlueprint edited)).
  split; [|split; [done|split; [done|split; [done|split; [done|]]]]].
  - unfold toggleEdit. by rewrite Hedited.
  - unfold edited. rewrite foldl_app. simpl. unfold edit at 1.
    rewrite edits_isEditing, Hs. simpl. apply readOnly_shows.
Qed.

Lemma toggleEdit_without_collaborator_witness :
  ∃ s' view,
    toggleEdit PropUndefined
      (edit (SetTargetLocales ["it"; "pt"]) (edit (SetWorkgroup "workgroup2") sampleReview)) =
      ([SaveChangesCalled
          (applyEdit (SetTargetLocales ["it"; "pt"])
             (applyEdit (SetWorkgroup "workgroup2") sampleProject))],
       Normal s') ∧
    render s' = Some view ∧
    shownWorkgroup view = "workgroup2" ∧
    shownTargetLocales view = "it, pt".
Proof.
  destruct (toggleEdit_without_collaborator sampleReview
              [SetWorkgroup "workgroup2"] (SetTargetLocales ["it"; "pt"]) eq_refl)
    as (s' & view & Htoggle & _ & _ & Hrender & Hview & Hshows).
  exists s', view. split; [exact Htoggle|]. split; [exact Hrender|].
  split; [by rewrite Hview | exact Hshows].
Defined.

End Review.

(** ** Blueprint Matcher: openings *)

Section Matcher.

Import AnalysisPopup.

Implicit Types (a : App) (s : State).

Lemma run_cons a (e : Event) (events : list Event) :
  run a (e :: events) = run (step a e) events.
Proof. done. Qed.

Lemma run_app a (events1 events2 : list Event) :
  run a (events1 ++ events2) = run (run a events1) events2.
Proof. apply foldl_app. Qed.

(** While the timer is pending, time changes nothing but the timer. *)
Lemma run_ticks_pending (n : nat) a s (m : nat) :
  child a = PopupMounted s → timer s = Some m → n < m →
  run a (repeat Tick n) =
    {| page := page a; child := PopupMounted (setTimer (Some (m - n)) s);
       console := console a |}.
Proof.
  revert a s m. induction n as [|n IH]; intros a s m Hchild Htimer Hlt.
  - simpl. destruct a as [p c o], s as [an st sb t]. simpl in *. subst.
    unfold setTimer. simpl. by rewrite Nat.sub_0_r.
  - simpl repeat. rewrite run_cons.
    assert (step a Tick =
              {| page := page a; child := PopupMounted (setTimer (Some (m - 1)) s);
                 console := console a |}) as ->.
    { unfold step, updatePopup. rewrite Hchild. unfold tick. rewrite Htimer.
      destruct (Nat.leb_spec m 1); [lia|done]. }
    rewrite (IH _ (setTimer (Some (m - 1)) s) (m - 1)); [|done|done|lia].
    simpl. unfold setTimer. simpl. do 4 f_equal. lia.
Qed.

(** A matcher that is open, analyzing and has just armed its timer shows
    "Analyzing" until the delay has passed, and then presents the catalog
    with its first entry as the candidate. *)
Lemma matcher_analyzes_for_delay a s :
  child a = PopupMounted s →
  TranslationPortal.isAnalysisPopupOpen (page a) = true →
  isAnalyzing s = true → timer s = Some delay →
  (∀ n, n < delay → matcherPhase (run a (repeat Tick n)) = Analyzing) ∧
  matcherPhase (run a (repeat Tick delay)) = Presenting ∧
  (selectedBlueprint <$> matcherState (run a (repeat Tick delay))) = Some (head blueprints).
Proof.
  intros Hchild Hopen Han Htimer. split.
  - intros n Hn. rewrite (run_ticks_pending n a s delay); [|done..].
    unfold matcherPhase, phase. simpl. by rewrite Hopen, Han.
  - assert (repeat Tick delay = repeat Tick 2999 ++ [Tick]) as -> by reflexivity.
    rewrite run_app, (run_ticks_pending 2999 a s delay); [|done|done|unfold delay; lia].
    unfold run, step, updatePopup, matcherPhase, matcherState, phase, tick. simpl.
    by rewrite Hopen.
Qed.

(** The first opening: "Next" on the page whose matcher was never opened. *)
Lemma first_opening_analyzes a :
  child a = PopupMounted initial →
  TranslationPortal.isAnalysisPopupOpen (page a) = false →
  TranslationPortal.files (page a) ≠ [] →
  matcherState (step a ClickNext) = Some (effect true initial) ∧
  matcherPhase (step a ClickNext) = Analyzing.
Proof.
  intros Hchild Hclosed Hfiles.
  destruct a as [[fs term isOpen chosen current] c out]. simpl in *. subst.
  by destruct fs as [|f fs].
Qed.

(** The reopening from the review stage: the form was mounted, so the
    matcher is mounted anew, in its initial state. *)
Lemma back_reopens_analyzing a (form : CheckAndFinalizeForm.State) :
  child a = FormMounted form →
  matcherState (step a ClickBack) = Some (effect true initial) ∧
  matcherPhase (step a ClickBack) = Analyzing.
Proof.
  intros Hchild. unfold step. rewrite Hchild. simpl.
  unfold matcherState, matcherPhase, updatePage, reconcile. simpl.
  by rewrite Hchild.
Qed.

(** The reopening after "Cancel": the matcher stayed mounted, and nothing
    sets [isAnalyzing] again. *)
Lemma cancel_then_next_presents a s :
  child a = PopupMounted s →
  TranslationPortal.isAnalysisPopupOpen (page a) = true →
  isAnalyzing s = false →
  TranslationPortal.files (page a) ≠ [] →
  TranslationPortal.rendersForm (page a) = None →
  matcherState (run a [ClickCancel; ClickNext]) = Some (setTimer (Some delay) s) ∧
  matcherPhase (run a [ClickCancel; ClickNext]) = Presenting.
Proof.
  intros Hchild Hopen Han Hfiles Hform.
  destruct a as [[fs term isOpen chosen current] c out]. simpl in *. subst.
  destruct fs as [|f fs]; [done|].
  unfold run, step, popupStep, intakeStep, updatePage, reconcile. simpl. rewrite Han. simpl.
  unfold reconcile, TranslationPortal.rendersForm in *. simpl in *.
  destruct current; simpl in *; subst; simpl.
  all: unfold matcherState, matcherPhase, phase; simpl; by rewrite Han.
Qed.

(** C2, where the program departs from it: a file is dropped, "Next" opens
    the matcher, which analyzes for the delay and then presents; the user
    picks the second card, types "opal", cancels, and presses "Next" again.
    This time the matcher opens on the catalog at once, with the search term
    and the candidate of the opening before; when the re-armed timer fires
    it replaces the user's candidate by the first catalog entry. *)
Theorem matcher_reopened_after_cancel :
  let opened := [Drop [sampleFile "terms.csv"]; ClickNext] ++ repeat Tick delay in
  let reopened := opened ++ [ClickCard 1; SearchBlueprints "opal"; ClickCancel; ClickNext] in
  matcherPhase (run mount [Drop [sampleFile "terms.csv"]; ClickNext]) = Analyzing ∧
  matcherPhase (run mount opened) = Presenting ∧
  matcherPhase (run mount reopened) = Presenting ∧
  matcherState (run mount reopened) =
    Some {| isAnalyzing := false; searchTerm := "opal";
            selectedBlueprint := Some regulatoryComplianceUpdate;
            timer := Some delay |} ∧
  (selectedBlueprint <$> matcherState (run mount (reopened ++ repeat Tick delay))) =
    Some (Some sampleProject).
Proof. vm_compute. done. Qed.

End Matcher.

(** * Further properties of the program *)

(** ** Classification: the keywords that decide *)

Section ClassificationTiers.

Implicit Types (fileName : string).

Lemma containsIgnoreCase_includes fileName (k : string) :
  toLowerCase k = k →
  (includes (toLowerCase fileName) k = false ↔ ¬ containsIgnoreCase fileName k).
Proof.
  intros Hk. rewrite <- (includes_lowercase_keyword fileName k Hk).
  by destruct (includes _ _).
Qed.

(** A keyword that extends another one cannot occur without it. *)
Lemma includes_prefix_false fileName (k1 k2 : string) :
  toLowerCase (k1 +:+ k2) = k1 +:+ k2 → toLowerCase k1 = k1 →
  includes (toLowerCase fileName) k1 = false →
  includes (toLowerCase fileName) (k1 +:+ k2) = false.
Proof.
  intros H12 H1. rewrite !containsIgnoreCase_includes by done.
  intros Hno Hin. by apply Hno, (containsIgnoreCase_prefix _ k1 k2).
Qed.

(** The twelve tests of the loop amount to seven. *)
Lemma determineFileType_tiers fileName (lowerFileName : string) :
  lowerFileName = toLowerCase fileName →
  determineFileType fileName =
    if includes lowerFileName "ref" then reference
    else if includes lowerFileName "instruction" || includes lowerFileName "guide"
            || includes lowerFileName "tutorial" then instructions
    else if includes lowerFileName "glossary" || includes lowerFileName "term"
            || includes lowerFileName "definitions" then glossary
    else work.
Proof.
  intros ->. unfold determineFileType, fileTypeMap, scanEntries.
  destruct (includes _ "ref") eqn:Href.
  - destruct (includes _ "reference"); [done|].
    by destruct (includes _ "references").
  - assert (includes (toLowerCase fileName) "reference" = false) as ->
      by exact (includes_prefix_false fileName "ref" "erence" eq_refl eq_refl Href).
    assert (includes (toLowerCase fileName) "references" = false) as ->
      by exact (includes_prefix_false fileName "ref" "erences" eq_refl eq_refl Href).
    assert (includes (toLowerCase fileName) "refs" = false) as ->
      by exact (includes_prefix_false fileName "ref" "s" eq_refl eq_refl Href).
    destruct (includes _ "instruction") eqn:Hinstruction; [done|].
    assert (includes (toLowerCase fileName) "instructions" = false) as ->
      by exact (includes_prefix_false fileName "instruction" "s" eq_refl eq_refl Hinstruction).
    destruct (includes _ "guide"); [done|]. destruct (includes _ "tutorial"); [done|].
    destruct (includes _ "glossary"); [done|].
    destruct (includes _ "term") eqn:Hterm; [done|].
    assert (includes (toLowerCase fileName) "terms" = false) as ->
      by exact (includes_prefix_false fileName "term" "s" eq_refl eq_refl Hterm).
    by destruct (includes _ "definitions").
Qed.

(** X1: the tag depends on seven keywords in three tiers: a name is a
    [reference] exactly when it contains "ref" in any case; otherwise it is
    [instructions] exactly when it contains "instruction", "guide" or
    "tutorial"; otherwise it is a [glossary] exactly when it contains
    "glossary", "term" or "definitions"; otherwise it is [work]. *)
Theorem determineFileType_decided_by fileName :
  let has k := containsIgnoreCase fileName k in
  let hasInstructions := has "instruction" ∨ has "guide" ∨ has "tutorial" in
  let hasGlossary := has "glossary" ∨ has "term" ∨ has "definitions" in
  (determineFileType fileName = reference ↔ has "ref") ∧
  (determineFileType fileName = instructions ↔ ¬ has "ref" ∧ hasInstructions) ∧
  (determineFileType fileName = glossary ↔
     ¬ has "ref" ∧ ¬ hasInstructions ∧ hasGlossary) ∧
  (determineFileType fileName = work ↔
     ¬ has "ref" ∧ ¬ hasInstructions ∧ ¬ hasGlossary).
Proof.
  intros has hasInstructions hasGlossary.
  unfold hasInstructions, hasGlossary, has.
  rewrite (determineFileType_tiers fileName _ eq_refl).
  rewrite <- !(includes_lowercase_keyword fileName) by done.
  destruct (includes _ "ref"), (includes _ "instruction"), (includes _ "guide"),
    (includes _ "tutorial"), (includes _ "glossary"), (includes _ "term"),
    (includes _ "definitions"); simpl; intuition congruence.
Qed.

End ClassificationTiers.

(** ** Intake stage: adding, editing and grouping files *)

Section IntakeList.

Implicit Types (files prev : list FileData) (f : FileData) (newType : FileType).

Lemma orElse_relativePath (file : File.t) :
  relativePathOf file
    (orElse (File.path file) (orElse (Some (File.webkitRelativePath file)) (File.name file))).
Proof.
  unfold relativePathOf, orElse.
  destruct (File.path file) as [[|c q]|]; simpl; try done;
    by destruct (File.webkitRelativePath file).
Qed.

(** X2: a drop keeps the files already listed where they are and appends one
    entry per dropped file, in the order of the drop, duplicates included:
    the entry is not selected, its path is the first non-empty of the
    handle's [path], [webkitRelativePath] and [name], and its tag is the
    classification of that path. *)
Theorem onDrop_appends (acceptedFiles : list File.t) prev :
  length (onDrop acceptedFiles prev) = length prev + length acceptedFiles ∧
  (∀ i f, prev !! i = Some f → onDrop acceptedFiles prev !! i = Some f) ∧
  (∀ j dropped, acceptedFiles !! j = Some dropped →
     ∃ f, onDrop acceptedFiles prev !! (length prev + j) = Some f ∧
       file f = dropped ∧ selected f = false ∧
       relativePathOf dropped (path f) ∧ type f = determineFileType (path f)).
Proof.
  unfold onDrop. split; [|split].
  - by rewrite length_app, length_fmap.
  - intros i f Hi. by apply lookup_app_l_Some.
  - intros j dropped Hj. rewrite lookup_app_r by lia.
    replace (length prev + j - length prev) with j by lia.
    rewrite list_lookup_fmap, Hj. simpl. eexists. split; [done|]. simpl.
    split; [done|]. split; [done|]. split; [apply orElse_relativePath|done].
Qed.

Lemma onDrop_appends_witness :
  ∃ f, onDrop [sampleFile "terms.csv"; sampleFile "terms.csv"] sampleFiles !! 4 = Some f ∧
    path f = "terms.csv" ∧ type f = glossary ∧ selected f = false.
Proof.
  destruct (proj2 (proj2 (onDrop_appends [sampleFile "terms.csv"; sampleFile "terms.csv"]
                            sampleFiles)) 1 (sampleFile "terms.csv") eq_refl)
    as (f & Hf & _ & Hsel & Hpath & Hty).
  exists f. split; [exact Hf|]. simpl in Hpath. rewrite Hty, Hpath. by split.
Defined.

Lemma imap_at {A} (g : nat → A → A) (l : list A) (i : nat) (x : A) :
  l !! i = Some x → (∀ j y, j ≠ i → g j y = y) → imap g l = <[i := g i x]> l.
Proof.
  intros Hi Hother. apply list_eq. intros j. rewrite list_lookup_imap.
  destruct (decide (j = i)) as [->|Hne].
  - rewrite Hi, list_lookup_insert_eq; [done|]. by apply lookup_lt_Some in Hi.
  - rewrite list_lookup_insert_ne by done.
    destruct (l !! j) as [y|]; [|done]. simpl. by rewrite Hother.
Qed.

(** X3: with an index in range, set classification replaces the file at
    that position by the same file with the new tag and touches no other
    position; a later change at the same index overrides an earlier one. *)
Theorem handleTypeChange_in_range files (i : nat) f newType :
  files !! i = Some f →
  handleTypeChange (Z.of_nat i) newType files = <[i := withType newType f]> files ∧
  ∀ earlier, handleTypeChange (Z.of_nat i) newType
               (handleTypeChange (Z.of_nat i) earlier files)
             = handleTypeChange (Z.of_nat i) newType files.
Proof.
  intros Hi.
  assert (∀ t l g, l !! i = Some g →
            handleTypeChange (Z.of_nat i) t l = <[i := withType t g]> l) as Hat.
  { intros t l g Hg. unfold handleTypeChange.
    rewrite (imap_at _ l i g Hg).
    - by rewrite Z.eqb_refl.
    - intros j y Hne. destruct (Z.eqb_spec (Z.of_nat j) (Z.of_nat i)); [lia|done]. }
  split; [by apply Hat|]. intros earlier.
  rewrite (Hat earlier files f Hi), (Hat newType files f Hi).
  rewrite (Hat newType _ (withType earlier f)).
  - by rewrite list_insert_insert_eq.
  - apply list_lookup_insert_eq. by apply lookup_lt_Some in Hi.
Qed.

Lemma handleTypeChange_in_range_witness :
  handleTypeChange 1 instructions sampleFiles =
    <[1 := {| file := sampleFile "terms.csv"; path := "terms.csv"; type := instructions;
              selected := false |}]> sampleFiles.
Proof.
  apply (proj1 (handleTypeChange_in_range sampleFiles 1
                  {| file := sampleFile "terms.csv"; path := "terms.csv"; type := glossary;
                     selected := false |} instructions eq_refl)).
Defined.

(** X4: toggle selection flips the flag at its index and nothing else, and
    toggling the same index twice gives the list back, whatever the index. *)
Theorem handleCheckboxChange_flips files (index : Z) :
  handleCheckboxChange index (handleCheckboxChange index files) = files ∧
  ∀ (i : nat) f, files !! i = Some f →
    handleCheckboxChange (Z.of_nat i) files
      = <[i := withSelected (negb (selected f)) f]> files.
Proof.
  split.
  - unfold handleCheckboxChange. apply list_eq. intros j.
    rewrite !list_lookup_imap. destruct (files !! j) as [f|]; [|done]. simpl.
    destruct (Z.of_nat j =? index)%Z; [|done].
    destruct f as [fl p t sel]. unfold withSelected. simpl. by rewrite negb_involutive.
  - intros i f Hi. unfold handleCheckboxChange. rewrite (imap_at _ files i f Hi).
    + by rewrite Z.eqb_refl.
    + intros j y Hne. destruct (Z.eqb_spec (Z.of_nat j) (Z.of_nat i)); [lia|done].
Qed.

Lemma handleCheckboxChange_flips_witness :
  handleCheckboxChange 1 sampleFiles =
    <[1 := {| file := sampleFile "terms.csv"; path := "terms.csv"; type := glossary;
              selected := true |}]> sampleFiles.
Proof.
  apply (proj2 (handleCheckboxChange_flips sampleFiles 1) 1
           {| file := sampleFile "terms.csv"; path := "terms.csv"; type := glossary;
              selected := false |} eq_refl).
Defined.

Lemma filter_none {A} (P : A → Prop) `{!∀ x, Decision (P x)} (l : list A) :
  filter P l = [] → ∀ x, x ∈ l → ¬ P x.
Proof.
  intros Hnil x Hin HP.
  assert (x ∈ filter P l) as Hx by (by apply list_elem_of_filter).
  rewrite Hnil in Hx. by apply elem_of_nil in Hx.
Qed.

(** X5: while no file is selected, which is when the page disables the bulk
    buttons, bulk set classification, delete-selected and "Done" would each
    leave the list as it is. *)
Theorem bulk_actions_without_selection files newType :
  selectedFiles files = [] →
  handleBulkTypeChange newType files = files ∧
  handleDeleteSelected files = files ∧
  handleDone files = files.
Proof.
  intros Hnone.
  assert (∀ f, f ∈ files → selected f = false) as Hsel.
  { intros f Hf. pose proof (filter_none _ files Hnone f Hf) as H.
    simpl in H. by destruct (selected f). }
  clear Hnone.
  unfold handleBulkTypeChange, handleDeleteSelected, handleDone.
  induction files as [|f files IH]; [done|].
  assert (selected f = false) as Hf by (apply Hsel; left).
  destruct IH as (IH1 & IH2 & IH3).
  { intros g Hg. apply Hsel. by right. }
  rewrite !fmap_cons, IH1, IH3, filter_cons_True, IH2 by (by rewrite Hf).
  rewrite Hf. destruct f as [fl p t sel]. simpl in Hf. by subst.
Qed.

Lemma bulk_actions_without_selection_witness :
  handleBulkTypeChange reference (handleDone sampleFiles) = handleDone sampleFiles.
Proof.
  apply (bulk_actions_without_selection (handleDone sampleFiles) reference). reflexivity.
Defined.

(** X6: the selection outlives a bulk change, so of two bulk changes in a
    row the later one decides the tags; and deleting the selected files
    twice deletes nothing more than deleting them once. *)
Theorem bulk_actions_compose files (t1 t2 : FileType) :
  handleBulkTypeChange t2 (handleBulkTypeChange t1 files) = handleBulkTypeChange t2 files ∧
  handleDeleteSelected (handleBulkTypeChange t1 files) = handleDeleteSelected files ∧
  handleDeleteSelected (handleDeleteSelected files) = handleDeleteSelected files.
Proof.
  unfold handleBulkTypeChange, handleDeleteSelected.
  induction files as [|f files (IH1 & IH2 & IH3)]; [done|].
  rewrite !fmap_cons, IH1. rewrite !filter_cons.
  destruct (selected f) eqn:Hf; simpl; rewrite ?Hf; simpl.
  - by rewrite IH2, IH3.
  - rewrite filter_cons, Hf. simpl. by rewrite IH2, IH3.
Qed.

(** X7: the four groups of the review stage are a partition of the file
    list: a file is in the group of a tag exactly when it is listed with
    that tag, each group keeps the order of the list, and together the
    groups hold the files of the list, each as often as the list does. *)
Theorem filesByCategory_partition files :
  (∀ category f,
     f ∈ CheckAndFinalizeForm.filesByCategory files category ↔
       f ∈ files ∧ type f = category) ∧
  (∀ category, CheckAndFinalizeForm.filesByCategory files category `sublist_of` files) ∧
  CheckAndFinalizeForm.filesByCategory files work ++
  CheckAndFinalizeForm.filesByCategory files reference ++
  CheckAndFinalizeForm.filesByCategory files glossary ++
  CheckAndFinalizeForm.filesByCategory files instructions ≡ₚ files.
Proof.
  unfold CheckAndFinalizeForm.filesByCategory. split; [|split].
  - intros category f. rewrite list_elem_of_filter. tauto.
  - intros category. apply sublist_filter.
  - induction files as [|f files IH]; [done|].
    rewrite !filter_cons. destruct (type f) eqn:Hf; simpl.
    + by rewrite IH.
    + by rewrite <- Permutation_middle, IH.
    + rewrite (app_assoc (filter _ files)), <- Permutation_middle, <- app_assoc.
      by rewrite IH.
    + rewrite !app_assoc, <- Permutation_middle, <- !app_assoc. by rewrite IH.
Qed.

End IntakeList.

(** ** The table rows and the file list *)

Section Rows.

Implicit Types (a : App) (f : FileData).

Lemma filter_lookup_lt {A} (P : A → Prop) `{!∀ x, Decision (P x)} (l : list A) (i : nat) :
  is_Some (filter P l !! i) → is_Some (l !! i).
Proof.
  rewrite !lookup_lt_is_Some. pose proof (length_filter P l). lia.
Qed.

(** X8: the rows of the table are the files that match the search term, but
    a row's checkbox and tag selector act on the file list by the row's
    position: a click in row [row] changes the file at position [row] of the
    whole list, which is the file shown in that row when the search term is
    empty. *)
Theorem row_controls_act_by_position a (s : AnalysisPopup.State) (row : nat) f newType :
  child a = PopupMounted s →
  filteredFiles (TranslationPortal.files (page a)) (TranslationPortal.searchTerm (page a))
    !! row = Some f →
  ∃ g, TranslationPortal.files (page a) !! row = Some g ∧
    (TranslationPortal.searchTerm (page a) = "" → g = f) ∧
    TranslationPortal.files (page (step a (RowCheckbox row))) =
      <[row := withSelected (negb (selected g)) g]> (TranslationPortal.files (page a)) ∧
    TranslationPortal.files (page (step a (RowTypeChange row newType))) =
      <[row := withType newType g]> (TranslationPortal.files (page a)).
Proof.
  intros Hchild Hrow.
  destruct (filter_lookup_lt _ _ row (mk_is_Some _ _ Hrow)) as [g Hg].
  exists g. split; [done|]. split.
  { intros Hterm. rewrite Hterm, filteredFiles_empty_term in Hrow. congruence. }
  assert (row < length (filteredFiles (TranslationPortal.files (page a))
                          (TranslationPortal.searchTerm (page a)))) as Hlt
    by (by apply lookup_lt_Some in Hrow).
  apply Nat.ltb_lt in Hlt.
  unfold step. rewrite Hchild. simpl. rewrite Hlt. simpl. split.
  - unfold handleCheckboxChange. rewrite (imap_at _ _ row g Hg).
    + by rewrite Z.eqb_refl.
    + intros j y Hne. destruct (Z.eqb_spec (Z.of_nat j) (Z.of_nat row)); [lia|done].
  - unfold handleTypeChange. rewrite (imap_at _ _ row g Hg).
    + by rewrite Z.eqb_refl.
    + intros j y Hne. destruct (Z.eqb_spec (Z.of_nat j) (Z.of_nat row)); [lia|done].
Qed.

(** With "chapter" typed in the search box the only row shows
    "Chapter1.docx"; its checkbox toggles "terms.csv", the first file of the
    list, which the table does not show. *)
Lemma row_controls_act_by_position_witness :
  let a := step sampleIntake (SearchFiles "chapter") in
  (path <$> filteredFiles (TranslationPortal.files (page a))
              (TranslationPortal.searchTerm (page a))) = ["Chapter1.docx"] ∧
  ∃ g, path g = "terms.csv" ∧
    TranslationPortal.files (page (step a (RowCheckbox 0))) =
      <[0 := withSelected (negb (selected g)) g]> (TranslationPortal.files (page a)).
Proof.
  intros a. split; [reflexivity|].
  destruct (row_controls_act_by_position a AnalysisPopup.initial 0
              {| file := sampleFile "Chapter1.docx"; path := "Chapter1.docx"; type := work;
                 selected := false |} work eq_refl eq_refl)
    as (g & Hg & _ & Hcheck & _).
  exists g. split; [|exact Hcheck].
  injection Hg as <-. reflexivity.
Defined.

End Rows.

(** ** Reachable states *)

Section Reachable.

Import AnalysisPopup.

Implicit Types (a : App) (e : Event).

Lemma wellFormed_mount : wellFormed mount.
Proof.
  unfold wellFormed, mount. simpl. by repeat split.
Qed.

Lemma elem_of_filteredBlueprints (s : State) (card : nat) (b : ProjectBlueprint) :
  filteredBlueprints s !! card = Some b → b ∈ blueprints.
Proof.
  intros Hb%list_elem_of_lookup_2. unfold filteredBlueprints in Hb.
  by apply list_elem_of_filter in Hb as [_ Hb].
Qed.

Lemma head_blueprints_catalog : ∃ b, head blueprints = Some b ∧ b ∈ blueprints.
Proof. exists sampleProject. split; [done|]. left. Qed.

Ltac use_invariants :=
  repeat match goal with
  | H : true = true → _ |- _ => specialize (H eq_refl)
  | H : false = false → _ |- _ => specialize (H eq_refl)
  | H : ∀ n, Some ?m = Some n → _ |- _ => specialize (H m eq_refl)
  | H : _ ∧ _ |- _ => destruct H
  | H : ∃ _, _ |- _ => destruct H
  | H : (_ <=? _) = false |- _ => apply Nat.leb_gt in H
  | H : (_ <=? _) = true |- _ => apply Nat.leb_le in H
  | H : filteredBlueprints _ !! _ = Some _ |- _ => apply elem_of_filteredBlueprints in H
  end.

Ltac close_invariants :=
  use_invariants; unfold delay in *; split_and!; intros; simplify_eq/=;
  first [done | lia | by eexists | by eauto using head_blueprints_catalog].

Lemma wellFormed_step a e : wellFormed a → wellFormed (step a e).
Proof.
  destruct a as [[fs term isOpen chosen current] c out].
  unfold wellFormed. simpl. intros (Hcat & Hup & Hopen & Hc).
  destruct c as [[an st sb t]|[ed eb]]; simpl in *.
  - destruct Hc as (Hstep & Htimer & Han & Hpres).
    destruct e; unfold step, intakeStep, popupStep, updatePage, updatePopup, reconcile,
      TranslationPortal.rendersForm, tick, effect, cleanup; simpl.
    all: repeat case_match; simplify_eq/=.
    all: try (split_and!; by eauto).
    all: try destruct isOpen; try destruct an; simplify_eq/=.
    all: close_invariants.
  - destruct Hc as (Hstep & Hclosed & [b Hb]). subst.
    destruct e; unfold step, formStep, updatePage, reconcile,
      TranslationPortal.rendersForm, CheckAndFinalizeForm.toggleEdit, effect; simpl.
    all: repeat case_match; simplify_eq/=.
    all: try (split_and!; by eauto).
    all: close_invariants.
Qed.

Lemma reachable_wellFormed a : reachable a → wellFormed a.
Proof.
  intros [events ->]. induction events as [|e events IH] using rev_ind.
  - apply wellFormed_mount.
  - rewrite run_app. by apply wellFormed_step.
Qed.

Lemma reachable_step a e : reachable a → reachable (step a e).
Proof. intros [events ->]. exists (events ++ [e]). by rewrite run_app. Qed.

Lemma reachable_run a (events : list Event) : reachable a → reachable (run a events).
Proof. intros [before ->]. exists (before ++ events). by rewrite run_app. Qed.

(** X9: in every reachable state the component tree follows the step of
    the page: the form is mounted, instead of the matcher, exactly in step
    [finalize], and then a blueprint is chosen; the matcher is open only in
    step [analyze]; in step [upload] no blueprint is chosen; and a chosen
    blueprint is an entry of the catalog. *)
Theorem reachable_tree_follows_step a :
  reachable a →
  (matcherState a = None ↔
     TranslationPortal.currentStep (page a) = TranslationPortal.finalize) ∧
  (TranslationPortal.isAnalysisPopupOpen (page a) = true →
     TranslationPortal.currentStep (page a) = TranslationPortal.analyze) ∧
  (TranslationPortal.currentStep (page a) = TranslationPortal.upload →
     TranslationPortal.selectedBlueprint (page a) = None) ∧
  (TranslationPortal.currentStep (page a) = TranslationPortal.finalize →
     is_Some (TranslationPortal.selectedBlueprint (page a))) ∧
  (∀ b, TranslationPortal.selectedBlueprint (page a) = Some b → b ∈ blueprints).
Proof.
  intros (Hcat & Hup & Hopen & Hc)%reachable_wellFormed.
  unfold matcherState. destruct (child a) as [s|form].
  - destruct Hc as (Hstep & _). by split_and!.
  - destruct Hc as (Hstep & _ & Hsome). by split_and!.
Qed.

Lemma reachable_tree_follows_step_witness :
  TranslationPortal.currentStep (page (step sampleIntake ClickNext))
    = TranslationPortal.analyze.
Proof.
  assert (reachable (step sampleIntake ClickNext)) as Hreach.
  { by exists [Drop [sampleFile "terms.csv"; sampleFile "Chapter1.docx"]; RowCheckbox 0;
               ClickNext]. }
  apply (proj1 (proj2 (reachable_tree_follows_step _ Hreach))). reflexivity.
Defined.

(** X10: in every reachable state the matcher's timer is pending only
    while the matcher is open, with between 1 and 3000 milliseconds left;
    so while the matcher is closed or unmounted, time passing changes
    nothing: no callback fires after the matcher was closed. *)
Theorem reachable_timer_only_while_open a :
  reachable a →
  (∀ s n, matcherState a = Some s → timer s = Some n →
     TranslationPortal.isAnalysisPopupOpen (page a) = true ∧ 1 ≤ n ≤ delay) ∧
  (matcherPhase a = Closed → step a Tick = a).
Proof.
  intros (_ & _ & _ & Hc)%reachable_wellFormed.
  destruct a as [p [s|form] out]; simpl in *.
  - destruct Hc as (_ & Htimer & _). split.
    + intros s' n [= <-]. apply Htimer.
    + unfold matcherPhase, phase, step, updatePopup, tick. simpl.
      destruct (TranslationPortal.isAnalysisPopupOpen p) eqn:Hp; simpl.
      { by destruct (isAnalyzing s). }
      intros _. destruct (timer s) as [n|] eqn:Hn; [|done].
      by destruct (Htimer n eq_refl).
  - split; [done|]. done.
Qed.

Lemma reachable_timer_only_while_open_witness :
  step sampleIntake Tick = sampleIntake.
Proof.
  assert (reachable sampleIntake) as Hreach by (eexists; reflexivity).
  apply (proj2 (reachable_timer_only_while_open _ Hreach)). reflexivity.
Defined.

(** X11: in every reachable state in which the matcher presents the
    catalog, a candidate is selected and it is a catalog entry, so "Confirm"
    is enabled; it mounts the form on exactly that candidate, whatever the
    search box filters out, records it as the chosen blueprint, moves the
    page to step [finalize], and leaves the files alone. *)
Theorem reachable_presenting_confirms a :
  reachable a → matcherPhase a = Presenting →
  ∃ b, b ∈ blueprints ∧
    (selectedBlueprint <$> matcherState a) = Some (Some b) ∧
    child (step a ClickConfirm) = FormMounted (CheckAndFinalizeForm.initial b) ∧
    TranslationPortal.selectedBlueprint (page (step a ClickConfirm)) = Some b ∧
    TranslationPortal.currentStep (page (step a ClickConfirm)) = TranslationPortal.finalize ∧
    TranslationPortal.files (page (step a ClickConfirm)) = TranslationPortal.files (page a).
Proof.
  intros (_ & _ & _ & Hc)%reachable_wellFormed.
  destruct a as [[fs term isOpen chosen current] [[an st sb t]|form] out];
    unfold matcherPhase, phase; simpl in *; [|done].
  destruct isOpen; [|done]. destruct an; [done|]. intros _.
  destruct Hc as (_ & _ & _ & Hpres). destruct (Hpres eq_refl) as (b & -> & Hb).
  exists b. by split_and!.
Qed.

Lemma reachable_presenting_confirms_witness :
  ∃ b, b ∈ blueprints ∧
    child (step (run mount ([Drop [sampleFile "terms.csv"]; ClickNext] ++ repeat Tick 3000
                            ++ [SearchBlueprints "no such blueprint"])) ClickConfirm)
      = FormMounted (CheckAndFinalizeForm.initial b).
Proof.
  set (events := [Drop [sampleFile "terms.csv"]; ClickNext] ++ repeat Tick 3000
                 ++ [SearchBlueprints "no such blueprint"]).
  assert (reachable (run mount events)) as Hreach by (exists events; reflexivity).
  assert (matcherPhase (run mount events) = Presenting) as Hphase
    by (vm_compute; reflexivity).
  destruct (reachable_presenting_confirms _ Hreach Hphase) as (b & Hb & _ & Hchild & _).
  exists b. split; [exact Hb|exact Hchild].
Defined.

(** The matcher with [n] milliseconds left on its timer. *)
Lemma run_ticks_fire (n : nat) a (s : State) :
  child a = PopupMounted s → timer s = Some (S n) →
  run a (repeat Tick (S n)) =
    {| page := page a; child := PopupMounted (timerCallback s); console := console a |}.
Proof.
  intros Hchild Htimer.
  assert (repeat Tick (S n) = repeat Tick n ++ [Tick]) as ->.
  { change (S n) with (1 + n). by rewrite Nat.add_comm, repeat_app. }
  rewrite run_app, (run_ticks_pending n a s (S n)); [|done|done|lia].
  unfold run, step, updatePopup, tick. simpl.
  replace (S n - n) with 1 by lia. done.
Qed.

(** X12: in every reachable state in which the matcher analyzes, the
    analysis ends by itself: for some [n] between 1 and 3000, the matcher
    still analyzes after fewer than [n] milliseconds, and after [n] it
    presents the catalog with the first entry as the candidate. *)
Theorem reachable_analysis_completes a :
  reachable a → matcherPhase a = Analyzing →
  ∃ n, 1 ≤ n ≤ delay ∧
    (∀ k, k < n → matcherPhase (run a (repeat Tick k)) = Analyzing) ∧
    matcherPhase (run a (repeat Tick n)) = Presenting ∧
    (selectedBlueprint <$> matcherState (run a (repeat Tick n))) = Some (head blueprints).
Proof.
  intros (_ & _ & _ & Hc)%reachable_wellFormed.
  destruct a as [[fs term isOpen chosen current] [s|form] out];
    unfold matcherPhase, phase; simpl in *; [|done].
  destruct isOpen; [|done]. simpl. destruct (isAnalyzing s) eqn:Han; [|done]. intros _.
  destruct Hc as (_ & Htimer & Hanalyzing & _).
  destruct (Hanalyzing eq_refl) as (_ & _ & Hsome).
  destruct (Hsome eq_refl) as [n Hn]. destruct (Htimer n Hn) as (_ & Hge & Hle).
  exists n. split; [done|]. split.
  - intros k Hk. rewrite (run_ticks_pending k _ s n); [|done..]. simpl. by rewrite Han.
  - destruct n as [|n]; [lia|]. by rewrite (run_ticks_fire n _ s).
Qed.

Lemma reachable_analysis_completes_witness :
  ∃ n, 1 ≤ n ≤ delay ∧
    matcherPhase (run (run mount ([Drop [sampleFile "terms.csv"]; ClickNext] ++ repeat Tick 1200))
                      (repeat Tick n)) = Presenting.
Proof.
  set (events := [Drop [sampleFile "terms.csv"]; ClickNext] ++ repeat Tick 1200).
  assert (reachable (run mount events)) as Hreach by (exists events; reflexivity).
  assert (matcherPhase (run mount events) = Analyzing) as Hnow
    by (vm_compute; reflexivity).
  destruct (reachable_analysis_completes _ Hreach Hnow) as (n & Hn & _ & Hphase & _).
  exists n. split; [exact Hn|exact Hphase].
Defined.

(** X13: in every reachable state in which the matcher analyzes, nothing
    the user does ends or alters the analysis: after any event other than
    the passing of time, the matcher is in the same state and still
    analyzes. *)
Theorem analysis_not_shortened a e :
  reachable a → matcherPhase a = Analyzing → e ≠ Tick →
  matcherState (step a e) = matcherState a ∧ matcherPhase (step a e) = Analyzing.
Proof.
  intros (_ & _ & Hopen & Hc)%reachable_wellFormed.
  destruct a as [[fs term isOpen chosen current] [[an st sb t]|form] out];
    unfold matcherPhase, phase; simpl in *; [|done].
  destruct isOpen; [|done]. destruct an; [|done]. intros _ Hne.
  pose proof (Hopen eq_refl) as ->.
  destruct e; try done;
    unfold step, intakeStep, popupStep, updatePage, reconcile, matcherState,
      TranslationPortal.rendersForm; simpl;
    repeat case_match; by simplify_eq/=.
Qed.

Lemma analysis_not_shortened_witness :
  matcherPhase (run mount [Drop [sampleFile "terms.csv"]; ClickNext; ClickCancel]) = Analyzing.
Proof.
  assert (reachable (run mount [Drop [sampleFile "terms.csv"]; ClickNext])) as Hreach
    by (eexists; reflexivity).
  apply (proj2 (analysis_not_shortened _ ClickCancel Hreach eq_refl ltac:(discriminate))).
Defined.

End Reachable.

(** ** Review stage: submitting, going back, editing *)

Section ReviewSession.

Implicit Types (a : App) (e : Event).

(** X14: from the review stage of a reachable state, "Create Project"
    empties the file list, forgets the chosen blueprint and returns to step
    [upload] with the matcher closed and in its initial state; the term in
    the search box of the intake page is the one thing that is kept. *)
Theorem submit_resets_all_but_search a (form : CheckAndFinalizeForm.State) :
  reachable a → child a = FormMounted form →
  page (step a ClickCreate) =
    TranslationPortal.setSearchTerm (TranslationPortal.searchTerm (page a))
      TranslationPortal.initial ∧
  child (step a ClickCreate) = PopupMounted AnalysisPopup.initial ∧
  matcherPhase (step a ClickCreate) = AnalysisPopup.Closed.
Proof.
  intros (_ & _ & _ & Hc)%reachable_wellFormed Hchild. rewrite Hchild in Hc.
  destruct Hc as (_ & Hclosed & _).
  destruct a as [[fs term isOpen chosen current] c out]. simpl in *. subst.
  done.
Qed.

Lemma submit_resets_all_but_search_witness :
  page (step (run mount reviewEvents) ClickCreate) =
    TranslationPortal.setSearchTerm "terms" TranslationPortal.initial.
Proof.
  assert (reachable (run mount reviewEvents)) as Hreach by (eexists; reflexivity).
  assert (child (run mount reviewEvents)
          = FormMounted (CheckAndFinalizeForm.initial sampleProject)) as Hchild
    by (vm_compute; reflexivity).
  destruct (submit_resets_all_but_search _ _ Hreach Hchild) as (Hpage & _).
  rewrite Hpage. vm_compute. reflexivity.
Defined.

(** X15: from the review stage, "Back", the delay and "Confirm" lead to
    the review stage again, with the form on the first catalog entry, as the
    catalog has it: the blueprint chosen before and the edits made in the
    form are gone, and the files are as they were. *)
Theorem back_then_confirm_first_entry a (form : CheckAndFinalizeForm.State) :
  child a = FormMounted form →
  ∃ first, head blueprints = Some first ∧
    let a' := run a ([ClickBack] ++ repeat Tick AnalysisPopup.delay ++ [ClickConfirm]) in
    child a' = FormMounted (CheckAndFinalizeForm.initial first) ∧
    TranslationPortal.selectedBlueprint (page a') = Some first ∧
    TranslationPortal.files (page a') = TranslationPortal.files (page a).
Proof.
  intros Hchild. exists sampleProject. split; [done|].
  rewrite !run_app. change (run a [ClickBack]) with (step a ClickBack).
  destruct a as [[fs term isOpen chosen current] c out]. simpl in Hchild. subst.
  unfold AnalysisPopup.delay.
  rewrite (run_ticks_fire 2999 _ (AnalysisPopup.effect true AnalysisPopup.initial));
    [|done..].
  done.
Qed.

Lemma back_then_confirm_first_entry_witness :
  ∃ first, head blueprints = Some first ∧
    child (run (run mount (reviewEvents ++ [ClickEdit; Edit (CheckAndFinalizeForm.SetWorkgroup "workgroup1")]))
             ([ClickBack] ++ repeat Tick AnalysisPopup.delay ++ [ClickConfirm]))
      = FormMounted (CheckAndFinalizeForm.initial first).
Proof.
  assert (child (run mount (reviewEvents ++ [ClickEdit; Edit (CheckAndFinalizeForm.SetWorkgroup "workgroup1")]))
          = FormMounted
              (CheckAndFinalizeForm.edit (CheckAndFinalizeForm.SetWorkgroup "workgroup1")
                 (CheckAndFinalizeForm.setIsEditing true
                    (CheckAndFinalizeForm.initial sampleProject)))) as Hchild
    by (vm_compute; reflexivity).
  destruct (back_then_confirm_first_entry _ _ Hchild) as (first & Hfirst & Hc & _).
  exists first. split; [exact Hfirst|exact Hc].
Defined.

(** X16: editing in the form stays in the form: any sequence of clicks on
    "Edit"/"Save" and of field edits leaves the page state (files, chosen
    blueprint, step) as it was, keeps the form mounted, and writes no
    warning to the console. *)
Lemma formEvent_step a (form : CheckAndFinalizeForm.State) e :
  child a = FormMounted form → formEvent e →
  page (step a e) = page a ∧
  (∃ form', child (step a e) = FormMounted form') ∧
  (∀ message, ConsoleWarn message ∈ console (step a e) → ConsoleWarn message ∈ console a).
Proof.
  intros Hchild He. destruct a as [p c out]. simpl in *. subst.
  destruct He as [->|[fe ->]]; unfold step, formStep; simpl.
  - unfold CheckAndFinalizeForm.toggleEdit. simpl.
    destruct (CheckAndFinalizeForm.isEditing form); simpl.
    + split_and!; [done|by eexists|].
      intros message [H|H]%elem_of_app; [done|].
      by apply list_elem_of_singleton in H.
    + split_and!; [done|by eexists|].
      intros message H. by rewrite app_nil_r in H.
  - split_and!; [done|by eexists|done].
Qed.

Theorem form_edits_stay_local a (form : CheckAndFinalizeForm.State) (events : list Event) :
  child a = FormMounted form → Forall formEvent events →
  page (run a events) = page a ∧
  (∃ form', child (run a events) = FormMounted form') ∧
  (∀ message, ConsoleWarn message ∈ console (run a events) →
     ConsoleWarn message ∈ console a).
Proof.
  intros Hchild Hevents. revert a form Hchild.
  induction Hevents as [|e events He _ IH]; intros a form Hchild.
  - simpl. split; [done|]. split; [by eexists|done].
  - rewrite run_cons.
    destruct (formEvent_step a form e Hchild He) as (Hpage & [form' Hform'] & Hwarn).
    destruct (IH _ form' Hform') as (Hpage' & Hchild' & Hwarn').
    split; [congruence|]. split; [done|]. eauto.
Qed.

Lemma form_edits_stay_local_witness :
  page (run (run mount reviewEvents)
          [ClickEdit; Edit (CheckAndFinalizeForm.SetWorkgroup "workgroup1"); ClickEdit])
    = page (run mount reviewEvents).
Proof.
  assert (child (run mount reviewEvents)
          = FormMounted (CheckAndFinalizeForm.initial sampleProject)) as Hchild
    by (vm_compute; reflexivity).
  assert (Forall formEvent
            [ClickEdit; Edit (CheckAndFinalizeForm.SetWorkgroup "workgroup1"); ClickEdit])
    as Hevents.
  { constructor; [by left|]. constructor; [right; by eexists|].
    constructor; [by left|]. constructor. }
  apply (proj1 (form_edits_stay_local _ _ _ Hchild Hevents)).
Defined.

End ReviewSession.

(** ** Review stage: the edit controls *)

Section ReviewEdits.

Import CheckAndFinalizeForm.

Implicit Types (s : State) (prop : SaveProp) (b : ProjectBlueprint).

(** X17: whatever the [onSaveChanges] prop, [toggleEdit] never changes
    the edited blueprint. When it completes it flips edit mode, and it has
    called the collaborator, once, with the edited blueprint, exactly when
    it was leaving edit mode and the prop was absent or a function; it
    throws only when the collaborator supplied throws, and then the form
    stays in edit mode. *)
Theorem toggleEdit_collaborator_on_leave prop s :
  match toggleEdit prop s with
  | (out, Normal s') =>
      editableBlueprint s' = editableBlueprint s ∧ isEditing s' = negb (isEditing s) ∧
      (out = [SaveChangesCalled (editableBlueprint s)] ↔
         isEditing s = true ∧ prop ≠ PropNotAFunction) ∧
      (isEditing s = false → out = [])
  | (out, Throw error) =>
      isEditing s = true ∧ out = [SaveChangesCalled (editableBlueprint s)] ∧
      ∃ f, prop = PropFunction f ∧ f (editableBlueprint s) = Throw error
  end.
Proof.
  unfold toggleEdit. destruct (isEditing s) eqn:Hs; simpl.
  - destruct prop as [|f|]; simpl.
    + split_and!; try done.
    + destruct (f (editableBlueprint s)) as [[]|error] eqn:Hf.
      * split_and!; try done.
      * split_and!; try done. by exists f.
    + split_and!; try done. split; [done|]. by intros [_ ?].
  - split_and!; try done. split; [done|]. by intros [? _].
Qed.

Lemma toggleEdit_collaborator_on_leave_witness :
  ∃ out s', toggleEdit PropUndefined (initial sampleProject) = (out, Normal s') ∧
    out = [] ∧ isEditing s' = true ∧ editableBlueprint s' = sampleProject.
Proof.
  pose proof (toggleEdit_collaborator_on_leave PropUndefined (initial sampleProject)) as H.
  destruct (toggleEdit PropUndefined (initial sampleProject)) as [out [s'|error]] eqn:Htoggle.
  - destruct H as (Hblueprint & Hediting & _ & Hout).
    exists out, s'. split; [reflexivity|]. split; [by apply Hout|]. by split.
  - by destruct H as [H _].
Defined.

(** X18: an edit changes the field of its control only: edits of
    different fields commute, of two edits of the same field the later one
    decides, and the name, the creation date and the services are never
    changed. *)
Theorem applyEdit_touches_one_field (e1 e2 : FieldEdit) b :
  (sameField e1 e2 = false →
     applyEdit e2 (applyEdit e1 b) = applyEdit e1 (applyEdit e2 b)) ∧
  (sameField e1 e2 = true → applyEdit e2 (applyEdit e1 b) = applyEdit e2 b) ∧
  name (applyEdit e1 b) = name b ∧
  creationDate (applyEdit e1 b) = creationDate b ∧
  services (applyEdit e1 b) = services b.
Proof. by destruct e1, e2. Qed.

Lemma applyEdit_touches_one_field_witness :
  applyEdit (SetWorkgroup "workgroup2") (applyEdit (SetWorkgroup "workgroup1") sampleProject)
    = applyEdit (SetWorkgroup "workgroup2") sampleProject.
Proof.
  apply (proj1 (proj2 (applyEdit_touches_one_field (SetWorkgroup "workgroup1")
                         (SetWorkgroup "workgroup2") sampleProject))).
  reflexivity.
Defined.

End ReviewEdits.

(** ** Blueprint Matcher: the search box *)

Section MatcherSearch.

Import AnalysisPopup.

Implicit Types (s : State) (b : ProjectBlueprint).

(** The texts of the catalog are ASCII. *)
Lemma blueprints_ascii b :
  b ∈ blueprints →
  isAscii (name b) = true ∧ isAscii (workgroup b) = true ∧ isAscii (division b) = true ∧
  isAscii (product b) = true ∧ isAscii (program b) = true ∧ isAscii (requester b) = true.
Proof.
  unfold blueprints. rewrite !elem_of_cons, elem_of_nil.
  intros [->|[->|[->|[]]]]; by vm_compute.
Qed.

Lemma matchesWith_iff (lower : string → string) (term : string) b :
  matchesWith lower term b = true ↔
    occursLowered lower (name b) term ∨ occursLowered lower (workgroup b) term ∨
    occursLowered lower (division b) term ∨ occursLowered lower (product b) term ∨
    occursLowered lower (program b) term ∨ occursLowered lower (requester b) term.
Proof.
  unfold matchesWith. rewrite !orb_true_iff, !includes_occursLowered. tauto.
Qed.

(** X19: whatever the built-in case map does outside ASCII, the cards of the
    matcher are, in catalog order, the catalog entries of which one of the
    name, workgroup, division, product, program and requester, lowered,
    includes the lowered search term; for an ASCII term these are the
    entries of which one of the six contains the term up to case; with the
    empty term they are the whole catalog; searching does not change the
    candidate, and selecting a candidate does not change the cards. *)
Theorem filteredBlueprints_search (lower : string → string) s :
  JsCaseMap lower →
  (searchTerm s = "" → filteredBlueprintsWith lower s = blueprints) ∧
  filteredBlueprintsWith lower s `sublist_of` blueprints ∧
  (∀ b, b ∈ filteredBlueprintsWith lower s ↔
     b ∈ blueprints ∧
     (occursLowered lower (name b) (searchTerm s) ∨
      occursLowered lower (workgroup b) (searchTerm s) ∨
      occursLowered lower (division b) (searchTerm s) ∨
      occursLowered lower (product b) (searchTerm s) ∨
      occursLowered lower (program b) (searchTerm s) ∨
      occursLowered lower (requester b) (searchTerm s))) ∧
  (isAscii (searchTerm s) = true →
   ∀ b, b ∈ filteredBlueprintsWith lower s ↔
     b ∈ blueprints ∧
     (containsIgnoreCase (name b) (searchTerm s) ∨
      containsIgnoreCase (workgroup b) (searchTerm s) ∨
      containsIgnoreCase (division b) (searchTerm s) ∨
      containsIgnoreCase (product b) (searchTerm s) ∨
      containsIgnoreCase (program b) (searchTerm s) ∨
      containsIgnoreCase (requester b) (searchTerm s))) ∧
  (∀ term, selectedBlueprint (setSearchTerm term s) = selectedBlueprint s) ∧
  (∀ candidate,
     filteredBlueprintsWith lower (setSelectedBlueprint candidate s)
       = filteredBlueprintsWith lower s).
Proof.
  intros Hlower.
  assert (∀ b, b ∈ filteredBlueprintsWith lower s ↔
     b ∈ blueprints ∧
     (occursLowered lower (name b) (searchTerm s) ∨
      occursLowered lower (workgroup b) (searchTerm s) ∨
      occursLowered lower (division b) (searchTerm s) ∨
      occursLowered lower (product b) (searchTerm s) ∨
      occursLowered lower (program b) (searchTerm s) ∨
      occursLowered lower (requester b) (searchTerm s))) as Hcards.
  { intros b. unfold filteredBlueprintsWith.
    rewrite list_elem_of_filter, Is_true_true, matchesWith_iff. tauto. }
  split_and!; try done.
  - intros Hterm. unfold filteredBlueprintsWith. apply filter_all. intros b _.
    rewrite Hterm. unfold matchesWith.
    rewrite (lower_ascii lower Hlower "" eq_refl). simpl. by rewrite includes_empty.
  - apply sublist_filter.
  - intros Hterm b. rewrite Hcards. split; intros [Hb Hfields]; (split; [done|]).
    all: destruct (blueprints_ascii b Hb) as (H1 & H2 & H3 & H4 & H5 & H6).
    + rewrite !(occursLowered_ascii_iff lower) in Hfields by done. exact Hfields.
    + rewrite !(occursLowered_ascii_iff lower) by done. exact Hfields.
Qed.

(** At the ASCII case map, which is the matcher model's. *)
Lemma filteredBlueprints_search_witness :
  filteredBlueprintsWith toLowerCase initial = blueprints ∧
  filteredBlueprintsWith toLowerCase (setSearchTerm "pharmaco" initial)
    = filteredBlueprints (setSearchTerm "pharmaco" initial) ∧
  filteredBlueprints (setSearchTerm "pharmaco" initial) = [regulatoryComplianceUpdate].
Proof.
  split; [|split; reflexivity].
  apply (proj1 (filteredBlueprints_search toLowerCase initial toLowerCase_JsCaseMap)).
  reflexivity.
Defined.

End MatcherSearch.
